(** * The cluster join barrier of the clusterize function

    A shallow embedding of
    [function-app/code/functions/clusterize/clusterize.go]: the script
    builders, the assembly step run by the last node
    ([HandleLastClusterVm]), the registration step ([Clusterize]) and the
    HTTP entry point ([Handler]), followed by the properties of the join
    barrier they implement.

    Go values are modelled as follows.
    - [string] is a Go string, [Z] a Go [int], [list string] a slice of
      strings, [gmap string string] a [map[string]string] (indexing a
      missing key gives the zero value, the empty string).
    - A Go [(T, error)] result is a [result T]; a Go [error] value is an
      [error], which keeps the dynamic type the code inspects
      ([*common.ShutdownRequired]) and the wrapping done by [fmt.Errorf].
    - A run-time panic (index out of range, failed type assertion) is the
      [Panic] case of [exec].
    - The shared state blob and the record of the calls made to it are the
      [World], threaded explicitly through [Clusterize] and [Handler]. *)

From stdpp Require Import base option list strings gmap pretty.
From Stdlib Require Import ZArith Lia.


Open Scope Z_scope.

(** ** Strings and formatting *)

Definition nl : string := String (Ascii.ascii_of_nat 10) EmptyString.
Definition tab : string := String (Ascii.ascii_of_nat 9) EmptyString.
Definition dquote : string := String (Ascii.ascii_of_nat 34) EmptyString.

(** [strings.Split(s, sep)] for a one-byte separator: the pieces of [s]
    between the occurrences of [sep]; never the empty slice. *)
Fixpoint strings_Split (s : string) (sep : Ascii.ascii) : list string :=
  match s with
  | EmptyString => [EmptyString]
  | String c rest =>
      if Ascii.eqb c sep then EmptyString :: strings_Split rest sep
      else match strings_Split rest sep with
           | [] => [String c EmptyString]
           | piece :: pieces => String c piece :: pieces
           end
  end.

(** [strings.ContainsRune(s, c)] for a one-byte [c]. *)
Fixpoint strings_Contains (s : string) (c : Ascii.ascii) : bool :=
  match s with
  | EmptyString => false
  | String c' rest => Ascii.eqb c' c || strings_Contains rest c
  end.

Definition colon : Ascii.ascii := Ascii.ascii_of_nat 58.
Definition percent : Ascii.ascii := Ascii.ascii_of_nat 37.
Definition letter_s : Ascii.ascii := Ascii.ascii_of_nat 115.
Definition letter_d : Ascii.ascii := Ascii.ascii_of_nat 100.

(** Operands of [fmt.Sprintf]: the program formats strings and ints only. *)
Inductive fmtArg :=
| argS (s : string)
| argD (n : Z).

Definition fmtExtraOne (a : fmtArg) : string :=
  match a with
  | argS s => "string=" +:+ s
  | argD n => "int=" +:+ pretty n
  end.

Fixpoint fmtExtraList (args : list fmtArg) : string :=
  match args with
  | [] => EmptyString
  | [a] => fmtExtraOne a
  | a :: rest => fmtExtraOne a +:+ ", " +:+ fmtExtraList rest
  end.

Definition fmtExtra (args : list fmtArg) : string :=
  match args with
  | [] => EmptyString
  | _ => "%!(EXTRA " +:+ fmtExtraList args +:+ ")"
  end.

Definition fmtVerbS (a : fmtArg) : string :=
  match a with
  | argS s => s
  | argD n => "%!s(int=" +:+ pretty n +:+ ")"
  end.

Definition fmtVerbD (a : fmtArg) : string :=
  match a with
  | argD n => pretty n
  | argS s => "%!d(string=" +:+ s +:+ ")"
  end.

(** [fmt.Sprintf] restricted to the verbs [%s] and [%d], the only ones in
    the formats of this program; a missing operand prints as
    [%!s(MISSING)], operands left over are listed after the text. *)
Fixpoint Sprintf (format : string) (args : list fmtArg) : string :=
  match format with
  | EmptyString => fmtExtra args
  | String c rest =>
      if Ascii.eqb c percent then
        match rest with
        | String v rest' =>
            if Ascii.eqb v letter_s then
              match args with
              | a :: args' => fmtVerbS a +:+ Sprintf rest' args'
              | [] => "%!s(MISSING)" +:+ Sprintf rest' []
              end
            else if Ascii.eqb v letter_d then
              match args with
              | a :: args' => fmtVerbD a +:+ Sprintf rest' args'
              | [] => "%!d(MISSING)" +:+ Sprintf rest' []
              end
            else String c (String v (Sprintf rest' args))
        | EmptyString => "%!(NOVERB)" +:+ fmtExtra args
        end
      else String c (Sprintf rest args)
  end.

(** ** Errors, results and panics *)

(** A Go [error]: [ShutdownRequired] is [*common.ShutdownRequired],
    [wrapError] is what [fmt.Errorf] with [%w] builds, [errorString] is any
    other error value. *)
Inductive error :=
| ShutdownRequired (Message : string)
| errorString (s : string)
| wrapError (msg : string) (err : error).

(** [err.Error()]; for [*common.ShutdownRequired], declared next to the
    store, the method is taken to return the message. *)
Definition Error (e : error) : string :=
  match e with
  | ShutdownRequired m => m
  | errorString s => s
  | wrapError msg _ => msg
  end.

(** [fmt.Errorf(prefix + "%w", err)] *)
Definition Errorf (prefix : string) (err : error) : error :=
  wrapError (prefix +:+ Error err) err.

(** The type assertion of [err] to a pointer to [common.ShutdownRequired]:
    it looks at the dynamic type of [err] itself and does not unwrap. *)
Definition isShutdownRequired (e : error) : bool :=
  match e with
  | ShutdownRequired _ => true
  | _ => false
  end.

Inductive result (A : Type) :=
| Ok (a : A)
| Err (e : error).
Arguments Ok {A} a.
Arguments Err {A} e.

Definition rbind {A B} (r : result A) (k : A → result B) : result B :=
  match r with
  | Ok a => k a
  | Err e => Err e
  end.

(** [if err != nil { err = fmt.Errorf(prefix + "%w", err); return }] *)
Definition orWrap {A} (r : result A) (prefix : string) : result A :=
  match r with
  | Ok a => Ok a
  | Err e => Err (Errorf prefix e)
  end.

Definition ofError (o : option error) : result unit :=
  match o with
  | None => Ok tt
  | Some e => Err e
  end.

Inductive exec (A : Type) :=
| Done (a : A)
| Panic (reason : string).
Arguments Done {A} a.
Arguments Panic {A} reason.

Definition ebind {A B} (c : exec A) (k : A → exec B) : exec B :=
  match c with
  | Done a => k a
  | Panic m => Panic m
  end.

Declare Scope go_scope.
Delimit Scope go_scope with go.
Notation "x <~ r ; k" := (rbind r (fun x => k))
  (at level 100, r at next level, right associativity) : go_scope.
Notation "x <! c ; k" := (ebind c (fun x => k))
  (at level 100, c at next level, right associativity) : go_scope.
Open Scope go_scope.

(** ** Data *)

Record AzureObsParams := {
  Name : string;
  ContainerName : string;
  AccessKey : string;
  TieringSsdPercent : string;
}.

(** [clusterize.DataProtectionParams] and [clusterize.ClusterParams] of the
    cloud library, with the fields this program sets. *)
Record DataProtectionParams := {
  StripeWidth : Z;
  ProtectionLevel : Z;
  Hotspare : Z;
}.

Record ClusterParams := {
  VMNames : list string;
  IPs : list string;
  ClusterName : string;
  HostsNum : Z;
  NvmesNum : Z;
  WekaUsername : string;
  WekaPassword : string;
  SetObs : bool;
  SmbwEnabled : bool;
  ObsScript : string;
  DataProtection : DataProtectionParams;
  ClusterInstallDpdk : bool;
  DebugOverrideCmds : string;
  AddFrontend : bool;
  ProxyUrl : string;
  WekaHomeUrl : string;
  FindDrivesScript : string;
}.

Record ClusterizationParams := {
  SubscriptionId : string;
  ResourceGroupName : string;
  Location : string;
  Prefix : string;
  KeyVaultUri : string;
  StateContainerName : string;
  StateStorageName : string;
  InstallDpdk : bool;
  VmName : string;
  Cluster : ClusterParams;
  Obs : AzureObsParams;
  FunctionAppName : string;
}.

Record RequestBody := { Vm : string }.

(** [protocol.ClusterState], the shared join record: the registered
    identifiers in registration order and the size the cluster is created
    with. *)
Record ClusterState := {
  Instances : list string;
  InitialSize : Z;
}.

(** The shared store as one invocation sees it: the state blob, and the
    identifiers the store has been called with so far (most recent first),
    so that a run that never reaches the store leaves [storeCalls] as it
    was. *)
Record World := {
  blob : ClusterState;
  storeCalls : list string;
}.

(** ** Collaborators *)

(** [functions_def.FunctionName]: the one function this program asks the
    definition of. *)
Inductive FunctionName := Report.

(** The pure helpers the program imports and whose code lives elsewhere:
    the dedent library, the Go standard library, the cloud library's script
    generators, and the [common] and [azure_functions_def] packages. The
    program is verified for any implementation of them. *)
Class Lib := {
  Dedent : string → string;
  strconv_Atoi : string → Z * option error;
  strconv_ParseBool : string → bool * option error;
  GetVmScaleSetName : string → string → string;
  GetScaleSetVmIndex : string → string;
  common_FindDrivesScript : string;
  FunctionDef : Type;
  NewFuncDef : string → string → FunctionDef;
  GetFunctionCmdDefinition : FunctionDef → FunctionName → string;
  cloudCommon_GetErrorScript : error → string → string;
  cloudCommon_GetScriptWithReport : string → string → string;
  GetClusterizeScript : ClusterParams → FunctionDef → string;
}.

(** What the process environment and the Azure services answer during one
    invocation. Each field takes the arguments the program passes (the
    context apart). [storeFailure] is the failure, if any, of the state
    store during the invocation. *)
Record Cloud := {
  Getenv : string → string;
  GetPublicIp : string → string → string → string → string → string → result string;
  storeFailure : option error;
  GetKeyVaultValue : string → string → result string;
  CreateStorageAccount : string → string → string → string → result string;
  CreateContainer : string → string → option error;
  AssignStorageBlobDataContributorRoleToScaleSet :
    string → string → string → string → string → option error;
  GetWekaClusterPassword : string → result string;
  GetVmsPrivateIps : string → string → string → result (gmap string string);
}.

(** Modelled from the spec: [common.AddInstanceToState], the conditional
    append of the shared join state store, whose code is not in
    clusterize.go. Following the spec's store contract and step 1 of its
    join coordinator: a store failure is returned as it is; an identifier
    already present is a no-op that returns the existing state; a new
    identifier arriving when [len(instances)] is already the expected size
    is rejected with the overflow signal and not appended; otherwise the
    identifier is appended and the updated state returned. *)
Definition AddInstanceToState (cloud : Cloud)
    (subscriptionId resourceGroupName stateStorageName stateContainerName
     newInstance : string) (w : World) : World * result ClusterState :=
  let state := blob w in
  let calls := newInstance :: storeCalls w in
  match storeFailure cloud with
  | Some err => ({| blob := state; storeCalls := calls |}, Err err)
  | None =>
      if bool_decide (newInstance ∈ Instances state) then
        ({| blob := state; storeCalls := calls |}, Ok state)
      else if Z.of_nat (length (Instances state)) =? InitialSize state then
        ({| blob := state; storeCalls := calls |},
         Err (ShutdownRequired "cluster is already at its expected size"))
      else
        let state' := {| Instances := (Instances state ++ [newInstance])%list;
                         InitialSize := InitialSize state |} in
        ({| blob := state'; storeCalls := calls |}, Ok state')
  end.

(** The instruction [Clusterize] decides on, one constructor per
    assignment to [clusterizeScript] in its body. *)
Inductive Instruction :=
| ShutDown
| ErrorScript (err : error)
| ReportedError (err : error) (reportFunction : string)
| FormCluster (script : string)
| Wait (msg : string) (reportFunction : string).

(** The [*http.Request] as the three decoding steps of [Handler] see it. *)
Inductive BodyField :=
| BodyNotAString
| BodyString (parsed : option RequestBody).

Inductive ReqField :=
| ReqUndecodable
| ReqObject (body : BodyField).

Inductive Request :=
| Undecodable
| InvokeRequest (req : ReqField).

(** [common.InvokeResponse] with [Logs] and [ReturnValue] nil, and what
    [Handler] writes: the content type header and the marshalled
    response. *)
Record InvokeResponse := {
  Outputs : gmap string (gmap string string);
}.

Record Written := {
  ContentType : string;
  responseJson : InvokeResponse;
}.

(** [outputs["res"]["body"]] of a written response. *)
Definition responseBody (wr : Written) : option string :=
  Outputs (responseJson wr) !! "res" ≫= (.!! "body").

Section Program.
Context `{lib : Lib}.

(** ** Script builders *)

Definition obsTemplate : string :=
  nl +:+
  tab +:+ "TIERING_SSD_PERCENT=%s" +:+ nl +:+
  tab +:+ "OBS_NAME=%s" +:+ nl +:+
  tab +:+ "OBS_CONTAINER_NAME=%s" +:+ nl +:+
  tab +:+ "OBS_BLOB_KEY=%s" +:+ nl +:+
  nl +:+
  tab +:+ "weka fs tier s3 add azure-obs --site local --obs-name default-local --obs-type AZURE --hostname $OBS_NAME.blob.core.windows.net --port 443 --bucket $OBS_CONTAINER_NAME --access-key-id $OBS_NAME --secret-key $OBS_BLOB_KEY --protocol https --auth-method AWSSignature4" +:+ nl +:+
  tab +:+ "weka fs tier s3 attach default azure-obs" +:+ nl +:+
  tab +:+ "tiering_percent=$(echo " +:+ dquote +:+
          "$full_capacity * 100 / $TIERING_SSD_PERCENT" +:+ dquote +:+
          " | bc)" +:+ nl +:+
  tab +:+ "weka fs update default --total-capacity " +:+ dquote +:+
          "$tiering_percent" +:+ dquote +:+ "B" +:+ nl +:+
  tab.

Definition GetObsScript (obsParams : AzureObsParams) : string :=
  Sprintf (Dedent obsTemplate)
    [argS (TieringSsdPercent obsParams); argS (Name obsParams);
     argS (ContainerName obsParams); argS (AccessKey obsParams)].

Definition GetWekaDebugOverrideCmds : string :=
  Dedent (nl +:+
          tab +:+ "weka debug override add --key allow_uncomputed_backend_checksum" +:+ nl +:+
          tab +:+ "weka debug override add --key allow_azure_auto_detection" +:+ nl +:+
          tab).

Definition errorTemplate : string :=
  nl +:+
  "#!/bin/bash" +:+ nl +:+
  "<<'###ERROR'" +:+ nl +:+
  "%s" +:+ nl +:+
  "###ERROR" +:+ nl +:+
  "exit 1" +:+ nl +:+
  tab.

Definition GetErrorScript (err : error) : string :=
  Sprintf errorTemplate [argS (Error err)].

Definition GetShutdownScript : string :=
  Dedent (nl +:+
          tab +:+ "#!/bin/bash" +:+ nl +:+
          tab +:+ "shutdown now" +:+ nl +:+
          tab).

(** ** HandleLastClusterVm *)

(** The loop over [state.Instances]: [vm := strings.Split(instance, ":")],
    then [vmsPrivateIps[vm[0]]] is appended to [ipsList] and [vm[1]] to
    [vmNamesList]; [vm[1]] panics when the split has one piece. *)
Fixpoint nodeLists (vmsPrivateIps : gmap string string) (instances : list string)
    (vmNamesList ipsList : list string) : exec (list string * list string) :=
  match instances with
  | [] => Done (vmNamesList, ipsList)
  | instance :: rest =>
      let vm := strings_Split instance colon in
      let ipsList := (ipsList ++ [default EmptyString
                                    (vmsPrivateIps !! default EmptyString (vm !! 0%nat))])%list in
      match vm !! 1%nat with
      | None => Panic "index out of range [1] with length 1"
      | Some name => nodeLists vmsPrivateIps rest (vmNamesList ++ [name])%list ipsList
      end
  end.

Definition withAccessKey (p : ClusterizationParams) (key : string) : ClusterizationParams :=
  {| SubscriptionId := SubscriptionId p;
     ResourceGroupName := ResourceGroupName p;
     Location := Location p;
     Prefix := Prefix p;
     KeyVaultUri := KeyVaultUri p;
     StateContainerName := StateContainerName p;
     StateStorageName := StateStorageName p;
     InstallDpdk := InstallDpdk p;
     VmName := VmName p;
     Cluster := Cluster p;
     Obs := {| Name := Name (Obs p);
               ContainerName := ContainerName (Obs p);
               AccessKey := key;
               TieringSsdPercent := TieringSsdPercent (Obs p) |};
     FunctionAppName := FunctionAppName p |}.

(** Lines 99-142: the provisioning and secret steps, each returning its
    wrapped error at once when it fails. The result is [p] with the access
    key possibly filled in, the cluster password and the private
    addresses. *)
Definition assemblySteps (cloud : Cloud) (p : ClusterizationParams)
    : result (ClusterizationParams * string * gmap string string) :=
  let vmScaleSetName := GetVmScaleSetName (Prefix p) (ClusterName (Cluster p)) in
  p <~ (if SetObs (Cluster p) then
          p <~ (if String.eqb (AccessKey (Obs p)) EmptyString then
                  key <~ orWrap (CreateStorageAccount cloud (SubscriptionId p)
                                   (ResourceGroupName p) (Name (Obs p)) (Location p))
                                "failed to create storage account: ";
                  _ <~ orWrap (ofError (CreateContainer cloud (Name (Obs p))
                                          (ContainerName (Obs p))))
                              "failed to create container: ";
                  Ok (withAccessKey p key)
                else Ok p);
          _ <~ orWrap (ofError (AssignStorageBlobDataContributorRoleToScaleSet cloud
                                  (SubscriptionId p) (ResourceGroupName p) vmScaleSetName
                                  (Name (Obs p)) (ContainerName (Obs p))))
                      "failed to assign storage blob data contributor role to scale set: ";
          Ok p
        else Ok p);
  wekaPassword <~ orWrap (GetWekaClusterPassword cloud (KeyVaultUri p))
                         "failed to get weka cluster password: ";
  vmsPrivateIps <~ orWrap (GetVmsPrivateIps cloud (SubscriptionId p)
                             (ResourceGroupName p) vmScaleSetName)
                          "failed to get vms private ips: ";
  Ok (p, wekaPassword, vmsPrivateIps).

(** Lines 155-163: the parameters handed to the script generator. *)
Definition clusterParamsOf (p : ClusterizationParams) (wekaPassword : string)
    (vmNamesList ipsList : list string) : ClusterParams :=
  let c := Cluster p in
  {| VMNames := vmNamesList;
     IPs := ipsList;
     ClusterName := ClusterName c;
     HostsNum := HostsNum c;
     NvmesNum := NvmesNum c;
     WekaUsername := "admin";
     WekaPassword := wekaPassword;
     SetObs := SetObs c;
     SmbwEnabled := SmbwEnabled c;
     ObsScript := GetObsScript (Obs p);
     DataProtection := DataProtection c;
     ClusterInstallDpdk := InstallDpdk p;
     DebugOverrideCmds := GetWekaDebugOverrideCmds;
     AddFrontend := AddFrontend c;
     ProxyUrl := ProxyUrl c;
     WekaHomeUrl := WekaHomeUrl c;
     FindDrivesScript := common_FindDrivesScript |}.

(** The assembly plan of [HandleLastClusterVm]: everything up to the call
    of the script generator. *)
Definition assemblyPlan (cloud : Cloud) (state : ClusterState)
    (p : ClusterizationParams) : exec (result ClusterParams) :=
  match assemblySteps cloud p with
  | Err err => Done (Err err)
  | Ok (p, wekaPassword, vmsPrivateIps) =>
      lists <! nodeLists vmsPrivateIps (Instances state) [] [];
      Done (Ok (clusterParamsOf p wekaPassword lists.1 lists.2))
  end.

(** [HandleLastClusterVm] with its two named results: the script, empty
    when an error is returned, and the error. *)
Definition HandleLastClusterVm (cloud : Cloud) (state : ClusterState)
    (p : ClusterizationParams) (funcDef : FunctionDef) : exec (string * option error) :=
  plan <! assemblyPlan cloud state p;
  match plan with
  | Err err => Done (EmptyString, Some err)
  | Ok clusterParams => Done (GetClusterizeScript clusterParams funcDef, None)
  end.

(** ** Clusterize *)

(** The identifier [Clusterize] registers (lines 178-188): the caller's
    name, followed by ":" and the public address when the address lookup
    succeeds, and the caller's name alone when it fails. *)
Definition registeredName (cloud : Cloud) (p : ClusterizationParams) : string :=
  let instanceName := default EmptyString (strings_Split (VmName p) colon !! 0%nat) in
  let instanceId := GetScaleSetVmIndex instanceName in
  let vmScaleSetName := GetVmScaleSetName (Prefix p) (ClusterName (Cluster p)) in
  let vmName := VmName p in
  match GetPublicIp cloud (SubscriptionId p) (ResourceGroupName p) vmScaleSetName
          (Prefix p) (ClusterName (Cluster p)) instanceId with
  | Err _ => vmName
  | Ok ip => Sprintf "%s:%s" [argS vmName; argS ip]
  end.

Definition waitMessage (instanceName : string) (registered hostsNum : Z) : string :=
  Sprintf "This (%s) is instance %d/%d that is ready for clusterization"
    [argS instanceName; argD registered; argD hostsNum].

(** [Clusterize], with the branch it takes kept as an [Instruction]. *)
Definition ClusterizeInstruction (cloud : Cloud) (p : ClusterizationParams)
    (w : World) : World * exec Instruction :=
  let instanceName := default EmptyString (strings_Split (VmName p) colon !! 0%nat) in
  let vmName := registeredName cloud p in
  let '(w, added) :=
    AddInstanceToState cloud (SubscriptionId p) (ResourceGroupName p)
      (StateStorageName p) (StateContainerName p) vmName w in
  match added with
  | Err err =>
      if isShutdownRequired err then (w, Done ShutDown)
      else (w, Done (ErrorScript err))
  | Ok state =>
      match GetKeyVaultValue cloud (KeyVaultUri p) "function-app-default-key" with
      | Err err => (w, Done (ErrorScript err))
      | Ok functionAppKey =>
          let baseFunctionUrl :=
            Sprintf "https://%s.azurewebsites.net/api/" [argS (FunctionAppName p)] in
          let funcDef := NewFuncDef baseFunctionUrl functionAppKey in
          let reportFunction := GetFunctionCmdDefinition funcDef Report in
          if Z.of_nat (length (Instances state)) =? HostsNum (Cluster p) then
            (w, last <! HandleLastClusterVm cloud state p funcDef;
                match last.2 with
                | Some err => Done (ReportedError err reportFunction)
                | None => Done (FormCluster last.1)
                end)
          else
            let msg := waitMessage instanceName
                         (Z.of_nat (length (Instances state))) (HostsNum (Cluster p)) in
            (w, Done (Wait msg reportFunction))
      end
  end.

(** The script each instruction stands for. *)
Definition render (i : Instruction) : string :=
  match i with
  | ShutDown => GetShutdownScript
  | ErrorScript err => GetErrorScript err
  | ReportedError err reportFunction => cloudCommon_GetErrorScript err reportFunction
  | FormCluster script => script
  | Wait msg reportFunction => cloudCommon_GetScriptWithReport msg reportFunction
  end.

Definition Clusterize (cloud : Cloud) (p : ClusterizationParams) (w : World)
    : World * exec string :=
  let '(w, i) := ClusterizeInstruction cloud p w in
  (w, i <! i; Done (render i)).

(** The two pieces of a registered identifier the assembly uses: the piece
    before the first ":" keys the private address map, the piece after it
    is the node name. *)
Definition addressKey (instance : string) : string :=
  default EmptyString (strings_Split instance colon !! 0%nat).

Definition nodeName (instance : string) : string :=
  default EmptyString (strings_Split instance colon !! 1%nat).

(** Names for what [Clusterize] computes on the way: the function
    definition and the report command built from the function key, and the
    instance name. *)
Definition funcDefOf (p : ClusterizationParams) (functionAppKey : string) : FunctionDef :=
  NewFuncDef (Sprintf "https://%s.azurewebsites.net/api/" [argS (FunctionAppName p)])
    functionAppKey.

Definition reportFunctionOf (p : ClusterizationParams) (functionAppKey : string) : string :=
  GetFunctionCmdDefinition (funcDefOf p functionAppKey) Report.

Definition instanceNameOf (p : ClusterizationParams) : string :=
  default EmptyString (strings_Split (VmName p) colon !! 0%nat).

(** A serialized sequence of registrations: the invocations run one after
    the other on the shared store, each with the service behaviour of its
    own time; the instruction of each is kept, in order. *)
Fixpoint registerAll (calls : list (Cloud * ClusterizationParams)) (w : World)
    : World * list (exec Instruction) :=
  match calls with
  | [] => (w, [])
  | call :: rest =>
      let '(w, i) := ClusterizeInstruction call.1 call.2 w in
      let '(w, later) := registerAll rest w in
      (w, i :: later)
  end.

(** The invocation went down the branch of line 213: it was the one to
    call [HandleLastClusterVm], whatever that call gave. *)
Definition assembles (r : exec Instruction) : bool :=
  match r with
  | Done (FormCluster _) | Done (ReportedError _ _) | Panic _ => true
  | _ => false
  end.

(** For one call of such a sequence: the identifier it registers, its store
    call, its reading of the function key, and that both services answer
    it. *)
Definition nameOfCall (call : Cloud * ClusterizationParams) : string :=
  registeredName call.1 call.2.

Definition addCall (call : Cloud * ClusterizationParams) (w : World)
    : World * result ClusterState :=
  AddInstanceToState call.1 (SubscriptionId call.2) (ResourceGroupName call.2)
    (StateStorageName call.2) (StateContainerName call.2) (nameOfCall call) w.

Definition functionKey (call : Cloud * ClusterizationParams) : result string :=
  GetKeyVaultValue call.1 (KeyVaultUri call.2) "function-app-default-key".

Definition answered (call : Cloud * ClusterizationParams) : Prop :=
  storeFailure call.1 = None ∧ ∃ key, functionKey call = Ok key.

(** What the invocation that is the [position]-th to register gets, when
    the cluster is expected to have [N] nodes: a progress report before the
    [N]-th, the assembly at the [N]-th, the shutdown after it. *)
Definition outcomeAt (N : Z) (call : Cloud * ClusterizationParams) (position : Z)
    (r : exec Instruction) : Prop :=
  (position < N →
     ∃ key, functionKey call = Ok key ∧
            r = Done (Wait (waitMessage (instanceNameOf call.2) position N)
                        (reportFunctionOf call.2 key))) ∧
  (position = N → assembles r = true) ∧
  (N < position → r = Done ShutDown).

(** The sub-steps of the assembly, in the order of the code, the text each
    puts in front of its error, and what it means for an invocation with
    service behaviour [cloud] and parameters [p] that the sub-step was
    reached and failed with [inner]. *)
Inductive SubStep :=
| StorageAccountCreation
| ContainerCreation
| RoleAssignment
| SecretResolution
| PrivateAddressResolution.

Definition stepPrefix (s : SubStep) : string :=
  match s with
  | StorageAccountCreation => "failed to create storage account: "
  | ContainerCreation => "failed to create container: "
  | RoleAssignment => "failed to assign storage blob data contributor role to scale set: "
  | SecretResolution => "failed to get weka cluster password: "
  | PrivateAddressResolution => "failed to get vms private ips: "
  end.

Definition storageAccount (cloud : Cloud) (p : ClusterizationParams) : result string :=
  CreateStorageAccount cloud (SubscriptionId p) (ResourceGroupName p) (Name (Obs p))
    (Location p).

Definition container (cloud : Cloud) (p : ClusterizationParams) : option error :=
  CreateContainer cloud (Name (Obs p)) (ContainerName (Obs p)).

Definition roleAssignment (cloud : Cloud) (p : ClusterizationParams) : option error :=
  AssignStorageBlobDataContributorRoleToScaleSet cloud (SubscriptionId p)
    (ResourceGroupName p) (GetVmScaleSetName (Prefix p) (ClusterName (Cluster p)))
    (Name (Obs p)) (ContainerName (Obs p)).

Definition privateAddresses (cloud : Cloud) (p : ClusterizationParams)
    : result (gmap string string) :=
  GetVmsPrivateIps cloud (SubscriptionId p) (ResourceGroupName p)
    (GetVmScaleSetName (Prefix p) (ClusterName (Cluster p))).

(** The object store is provisioned: nothing to do, or every step needed
    went through. *)
Definition obsProvisioned (cloud : Cloud) (p : ClusterizationParams) : Prop :=
  SetObs (Cluster p) = true →
    (AccessKey (Obs p) = EmptyString →
       (∃ key, storageAccount cloud p = Ok key) ∧ container cloud p = None) ∧
    roleAssignment cloud p = None.

Definition subStepFails (cloud : Cloud) (p : ClusterizationParams) (s : SubStep)
    (inner : error) : Prop :=
  match s with
  | StorageAccountCreation =>
      SetObs (Cluster p) = true ∧ AccessKey (Obs p) = EmptyString ∧
      storageAccount cloud p = Err inner
  | ContainerCreation =>
      SetObs (Cluster p) = true ∧ AccessKey (Obs p) = EmptyString ∧
      (∃ key, storageAccount cloud p = Ok key) ∧ container cloud p = Some inner
  | RoleAssignment =>
      SetObs (Cluster p) = true ∧
      (AccessKey (Obs p) = EmptyString →
         (∃ key, storageAccount cloud p = Ok key) ∧ container cloud p = None) ∧
      roleAssignment cloud p = Some inner
  | SecretResolution =>
      obsProvisioned cloud p ∧ GetWekaClusterPassword cloud (KeyVaultUri p) = Err inner
  | PrivateAddressResolution =>
      obsProvisioned cloud p ∧
      (∃ password, GetWekaClusterPassword cloud (KeyVaultUri p) = Ok password) ∧
      privateAddresses cloud p = Err inner
  end.

(** ** Handler *)

(** Lines 227-256 and 286-318: the parameters read from the environment,
    for the node name [vm] of the request. *)
Definition paramsOf (cloud : Cloud) (vm : string) : ClusterizationParams :=
  let stateContainerName := Getenv cloud "STATE_CONTAINER_NAME" in
  let stateStorageName := Getenv cloud "STATE_STORAGE_NAME" in
  let hostsNum := (strconv_Atoi (Getenv cloud "HOSTS_NUM")).1 in
  let clusterName := Getenv cloud "CLUSTER_NAME" in
  let subscriptionId := Getenv cloud "SUBSCRIPTION_ID" in
  let resourceGroupName := Getenv cloud "RESOURCE_GROUP_NAME" in
  let setObs := (strconv_ParseBool (Getenv cloud "SET_OBS")).1 in
  let smbwEnabled := (strconv_ParseBool (Getenv cloud "SMBW_ENABLED")).1 in
  let obsName := Getenv cloud "OBS_NAME" in
  let obsContainerName := Getenv cloud "OBS_CONTAINER_NAME" in
  let obsAccessKey := Getenv cloud "OBS_ACCESS_KEY" in
  let location := Getenv cloud "LOCATION" in
  let nvmesNum := (strconv_Atoi (Getenv cloud "NVMES_NUM")).1 in
  let tieringSsdPercent := Getenv cloud "TIERING_SSD_PERCENT" in
  let prefix := Getenv cloud "PREFIX" in
  let keyVaultUri := Getenv cloud "KEY_VAULT_URI" in
  let stripeWidth := (strconv_Atoi (Getenv cloud "STRIPE_WIDTH")).1 in
  let protectionLevel := (strconv_Atoi (Getenv cloud "PROTECTION_LEVEL")).1 in
  let hotspare := (strconv_Atoi (Getenv cloud "HOTSPARE")).1 in
  let installDpdk := (strconv_ParseBool (Getenv cloud "INSTALL_DPDK")).1 in
  let addFrontendNum := (strconv_Atoi (Getenv cloud "NUM_FRONTEND_CONTAINERS")).1 in
  let functionAppName := Getenv cloud "FUNCTION_APP_NAME" in
  let proxyUrl := Getenv cloud "PROXY_URL" in
  let wekaHomeUrl := Getenv cloud "WEKA_HOME_URL" in
  let addFrontend := if 0 <? addFrontendNum then true else false in
  {| SubscriptionId := subscriptionId;
     ResourceGroupName := resourceGroupName;
     Location := location;
     Prefix := prefix;
     KeyVaultUri := keyVaultUri;
     StateContainerName := stateContainerName;
     StateStorageName := stateStorageName;
     VmName := vm;
     InstallDpdk := installDpdk;
     Cluster :=
       {| HostsNum := hostsNum;
          ClusterName := clusterName;
          NvmesNum := nvmesNum;
          SetObs := setObs;
          SmbwEnabled := smbwEnabled;
          AddFrontend := addFrontend;
          ProxyUrl := proxyUrl;
          WekaHomeUrl := wekaHomeUrl;
          DataProtection :=
            {| StripeWidth := stripeWidth;
               ProtectionLevel := protectionLevel;
               Hotspare := hotspare |};
          VMNames := [];
          IPs := [];
          WekaUsername := EmptyString;
          WekaPassword := EmptyString;
          ObsScript := EmptyString;
          ClusterInstallDpdk := false;
          DebugOverrideCmds := EmptyString;
          FindDrivesScript := EmptyString |};
     Obs :=
       {| Name := obsName;
          ContainerName := obsContainerName;
          AccessKey := obsAccessKey;
          TieringSsdPercent := tieringSsdPercent |};
     FunctionAppName := functionAppName |}.

(** Lines 328-334: the response written for the body [body]. *)
Definition respond (body : string) : Written :=
  {| ContentType := "application/json";
     responseJson := {| Outputs := {[ "res" := {[ "body" := body ]} ]} |} |}.

(** [Handler]: [None] is a return with nothing written to the response
    writer. *)
Definition Handler (cloud : Cloud) (r : Request) (w : World)
    : World * exec (option Written) :=
  match r with
  | Undecodable => (w, Done None)
  | InvokeRequest ReqUndecodable => (w, Done None)
  | InvokeRequest (ReqObject BodyNotAString) =>
      (w, Panic "interface conversion: interface {} is not string")
  | InvokeRequest (ReqObject (BodyString None)) => (w, Done None)
  | InvokeRequest (ReqObject (BodyString (Some data))) =>
      let params := paramsOf cloud (Vm data) in
      let '(w, body) :=
        if String.eqb (Vm data) EmptyString then
          (w, Done "Cluster name wasn't supplied")
        else Clusterize cloud params w in
      (w, body <! body; Done (Some (respond body)))
  end.

End Program.

(** ** A sample deployment

    One implementation of the collaborators and a few service behaviours,
    on which the program above can be run. *)

Module Sample.

(** Removes the tab that starts a line: on the templates of this program,
    whose lines all start with one tab, this is what the dedent library
    computes. *)
Fixpoint stripTabs (startOfLine : bool) (s : string) : string :=
  match s with
  | EmptyString => EmptyString
  | String c rest =>
      if startOfLine && Ascii.eqb c (Ascii.ascii_of_nat 9) then stripTabs false rest
      else String c (stripTabs (Ascii.eqb c (Ascii.ascii_of_nat 10)) rest)
  end.

Fixpoint parseDigits (s : string) (acc : Z) : option Z :=
  match s with
  | EmptyString => Some acc
  | String c rest =>
      let n := Z.of_nat (Ascii.nat_of_ascii c) in
      if (48 <=? n) && (n <=? 57) then parseDigits rest (10 * acc + (n - 48)) else None
  end.

Definition atoi (s : string) : Z * option error :=
  match s with
  | EmptyString => (0, Some (errorString "strconv.Atoi: invalid syntax"))
  | _ => match parseDigits s 0 with
         | Some n => (n, None)
         | None => (0, Some (errorString "strconv.Atoi: invalid syntax"))
         end
  end.

Definition parseBool (s : string) : bool * option error :=
  if bool_decide (s ∈ ["1"; "t"; "T"; "TRUE"; "true"; "True"]) then (true, None)
  else if bool_decide (s ∈ ["0"; "f"; "F"; "FALSE"; "false"; "False"]) then (false, None)
  else (false, Some (errorString "strconv.ParseBool: invalid syntax")).

Fixpoint join (sep : string) (l : list string) : string :=
  match l with
  | [] => EmptyString
  | [x] => x
  | x :: rest => x +:+ sep +:+ join sep rest
  end.

#[global] Instance lib : Lib := {|
  Dedent := stripTabs true;
  strconv_Atoi := atoi;
  strconv_ParseBool := parseBool;
  GetVmScaleSetName := fun prefix clusterName => prefix +:+ "-" +:+ clusterName +:+ "-vmss";
  GetScaleSetVmIndex := fun instanceName => instanceName;
  common_FindDrivesScript := "find_drives";
  FunctionDef := string * string;
  NewFuncDef := fun baseFunctionUrl functionAppKey => (baseFunctionUrl, functionAppKey);
  GetFunctionCmdDefinition := fun funcDef _ =>
    "function report { curl " +:+ funcDef.1 +:+ "report?code=" +:+ funcDef.2 +:+ " -d $1; }";
  cloudCommon_GetErrorScript := fun err reportFunction =>
    reportFunction +:+ nl +:+ "report error: " +:+ Error err +:+ nl +:+ "exit 1" +:+ nl;
  cloudCommon_GetScriptWithReport := fun msg reportFunction =>
    reportFunction +:+ nl +:+ "report progress: " +:+ msg +:+ nl;
  GetClusterizeScript := fun params _ =>
    "weka cluster create " +:+ join " " (VMNames params) +:+
    " --host-ips=" +:+ join "," (IPs params) +:+ nl;
|}.

Definition environment (hostsNum : string) (name : string) : string :=
  if String.eqb name "HOSTS_NUM" then hostsNum
  else if String.eqb name "CLUSTER_NAME" then "poc"
  else if String.eqb name "PREFIX" then "weka"
  else if String.eqb name "SET_OBS" then "true"
  else if String.eqb name "OBS_NAME" then "wekaobs"
  else if String.eqb name "OBS_CONTAINER_NAME" then "tiering"
  else if String.eqb name "KEY_VAULT_URI" then "https://weka-poc.vault.azure.net"
  else if String.eqb name "FUNCTION_APP_NAME" then "weka-poc-function-app"
  else EmptyString.

Definition privateIps : gmap string string :=
  {[ "vm0" := "10.0.0.4"; "vm1" := "10.0.0.5"; "vm2" := "10.0.0.6" ]}.

Definition unavailable (what : string) : error :=
  errorString (what +:+ ": service unavailable").

(** Every service answers. *)
Definition healthy (hostsNum : string) : Cloud := {|
  Getenv := environment hostsNum;
  GetPublicIp := fun _ _ _ _ _ _ => Ok "20.1.2.3";
  storeFailure := None;
  GetKeyVaultValue := fun _ _ => Ok "s3cr3t";
  CreateStorageAccount := fun _ _ _ _ => Ok "blobkey";
  CreateContainer := fun _ _ => None;
  AssignStorageBlobDataContributorRoleToScaleSet := fun _ _ _ _ _ => None;
  GetWekaClusterPassword := fun _ => Ok "adminpw";
  GetVmsPrivateIps := fun _ _ _ => Ok privateIps;
|}.

(** The key vault is down; the rest answers. *)
Definition keyVaultDown (hostsNum : string) : Cloud := {|
  Getenv := environment hostsNum;
  GetPublicIp := fun _ _ _ _ _ _ => Ok "20.1.2.3";
  storeFailure := None;
  GetKeyVaultValue := fun _ _ => Err (unavailable "key vault");
  CreateStorageAccount := fun _ _ _ _ => Ok "blobkey";
  CreateContainer := fun _ _ => None;
  AssignStorageBlobDataContributorRoleToScaleSet := fun _ _ _ _ _ => None;
  GetWekaClusterPassword := fun _ => Err (unavailable "key vault");
  GetVmsPrivateIps := fun _ _ _ => Ok privateIps;
|}.

(** The function key can be read but the cluster password cannot. *)
Definition passwordDown (hostsNum : string) : Cloud := {|
  Getenv := environment hostsNum;
  GetPublicIp := fun _ _ _ _ _ _ => Ok "20.1.2.3";
  storeFailure := None;
  GetKeyVaultValue := fun _ _ => Ok "s3cr3t";
  CreateStorageAccount := fun _ _ _ _ => Ok "blobkey";
  CreateContainer := fun _ _ => None;
  AssignStorageBlobDataContributorRoleToScaleSet := fun _ _ _ _ _ => None;
  GetWekaClusterPassword := fun _ => Err (unavailable "key vault");
  GetVmsPrivateIps := fun _ _ _ => Ok privateIps;
|}.

(** The public address lookup fails; the rest answers. *)
Definition publicIpDown (hostsNum : string) : Cloud := {|
  Getenv := environment hostsNum;
  GetPublicIp := fun _ _ _ _ _ _ => Err (unavailable "public ip");
  storeFailure := None;
  GetKeyVaultValue := fun _ _ => Ok "s3cr3t";
  CreateStorageAccount := fun _ _ _ _ => Ok "blobkey";
  CreateContainer := fun _ _ => None;
  AssignStorageBlobDataContributorRoleToScaleSet := fun _ _ _ _ _ => None;
  GetWekaClusterPassword := fun _ => Ok "adminpw";
  GetVmsPrivateIps := fun _ _ _ => Ok privateIps;
|}.

(** The state store cannot be reached. *)
Definition storeDown (hostsNum : string) : Cloud := {|
  Getenv := environment hostsNum;
  GetPublicIp := fun _ _ _ _ _ _ => Ok "20.1.2.3";
  storeFailure := Some (unavailable "state store");
  GetKeyVaultValue := fun _ _ => Ok "s3cr3t";
  CreateStorageAccount := fun _ _ _ _ => Ok "blobkey";
  CreateContainer := fun _ _ => None;
  AssignStorageBlobDataContributorRoleToScaleSet := fun _ _ _ _ _ => None;
  GetWekaClusterPassword := fun _ => Ok "adminpw";
  GetVmsPrivateIps := fun _ _ _ => Ok privateIps;
|}.

(** The role assignment is refused. *)
Definition roleDenied (hostsNum : string) : Cloud := {|
  Getenv := environment hostsNum;
  GetPublicIp := fun _ _ _ _ _ _ => Ok "20.1.2.3";
  storeFailure := None;
  GetKeyVaultValue := fun _ _ => Ok "s3cr3t";
  CreateStorageAccount := fun _ _ _ _ => Ok "blobkey";
  CreateContainer := fun _ _ => None;
  AssignStorageBlobDataContributorRoleToScaleSet :=
    fun _ _ _ _ _ => Some (errorString "authorization failed");
  GetWekaClusterPassword := fun _ => Ok "adminpw";
  GetVmsPrivateIps := fun _ _ _ => Ok privateIps;
|}.

(** The store before any node has registered. *)
Definition fresh (size : Z) : World :=
  {| blob := {| Instances := []; InitialSize := size |}; storeCalls := [] |}.

Definition holding (instances : list string) (size : Z) : World :=
  {| blob := {| Instances := instances; InitialSize := size |}; storeCalls := [] |}.

Definition request (vm : string) : Request :=
  InvokeRequest (ReqObject (BodyString (Some {| Vm := vm |}))).

(** Three nodes of a cluster of three, in the order they register. *)
Definition node (hostsNum vm : string) : Cloud * ClusterizationParams :=
  (healthy hostsNum, paramsOf (healthy hostsNum) vm).

Definition threeNodes : list (Cloud * ClusterizationParams) :=
  [node "3" "vm0:host0"; node "3" "vm1:host1"; node "3" "vm2:host2"].

Definition threeRegistered : list string :=
  ["vm0:host0:20.1.2.3"; "vm1:host1:20.1.2.3"; "vm2:host2:20.1.2.3"].

(** Two nodes of a cluster of two; the key vault is down when the second
    one registers. *)
Definition twoNodes : list (Cloud * ClusterizationParams) :=
  [node "2" "vm0:host0"; (keyVaultDown "2", paramsOf (keyVaultDown "2") "vm1:host1")].

(** The store reports the overflow wrapped in another error. *)
Definition overflowWrapped (hostsNum : string) : Cloud := {|
  Getenv := environment hostsNum;
  GetPublicIp := fun _ _ _ _ _ _ => Ok "20.1.2.3";
  storeFailure := Some (Errorf "lease lost: " (ShutdownRequired "cluster is full"));
  GetKeyVaultValue := fun _ _ => Ok "s3cr3t";
  CreateStorageAccount := fun _ _ _ _ => Ok "blobkey";
  CreateContainer := fun _ _ => None;
  AssignStorageBlobDataContributorRoleToScaleSet := fun _ _ _ _ _ => None;
  GetWekaClusterPassword := fun _ => Ok "adminpw";
  GetVmsPrivateIps := fun _ _ _ => Ok privateIps;
|}.

(** Storage accounts and containers cannot be created. *)
Definition storageDown (hostsNum : string) : Cloud := {|
  Getenv := environment hostsNum;
  GetPublicIp := fun _ _ _ _ _ _ => Ok "20.1.2.3";
  storeFailure := None;
  GetKeyVaultValue := fun _ _ => Ok "s3cr3t";
  CreateStorageAccount := fun _ _ _ _ => Err (unavailable "storage");
  CreateContainer := fun _ _ => Some (unavailable "storage");
  AssignStorageBlobDataContributorRoleToScaleSet := fun _ _ _ _ _ => None;
  GetWekaClusterPassword := fun _ => Ok "adminpw";
  GetVmsPrivateIps := fun _ _ _ => Ok privateIps;
|}.

(** Only HOSTS_NUM is set in the environment, so tiering is off; no
    object-store service answers. *)
Definition untiered (hostsNum : string) : Cloud := {|
  Getenv := fun name => if String.eqb name "HOSTS_NUM" then hostsNum else EmptyString;
  GetPublicIp := fun _ _ _ _ _ _ => Ok "20.1.2.3";
  storeFailure := None;
  GetKeyVaultValue := fun _ _ => Ok "s3cr3t";
  CreateStorageAccount := fun _ _ _ _ => Err (unavailable "storage");
  CreateContainer := fun _ _ => Some (unavailable "storage");
  AssignStorageBlobDataContributorRoleToScaleSet :=
    fun _ _ _ _ _ => Some (unavailable "authorization");
  GetWekaClusterPassword := fun _ => Ok "adminpw";
  GetVmsPrivateIps := fun _ _ _ => Ok privateIps;
|}.

(** The plan for the three nodes. *)
Definition threePlan : ClusterParams :=
  clusterParamsOf (withAccessKey (paramsOf (healthy "3") "vm2:host2") "blobkey") "adminpw"
    ["host0"; "host1"; "host2"] ["10.0.0.4"; "10.0.0.5"; "10.0.0.6"].

(** The parameters of a node when an access key is already configured. *)
Definition keyed (vm : string) : ClusterizationParams :=
  withAccessKey (paramsOf (healthy "3") vm) "existing".

End Sample.

(** * Properties *)

Section Properties.
Context `{lib : Lib}.

(** ** Splitting and formatting *)

Lemma strings_Split_cons (s : string) (sep : Ascii.ascii) :
  ∃ piece pieces, strings_Split s sep = piece :: pieces.
Proof.
  destruct s as [|c rest]; simpl; [by eauto|].
  destruct (Ascii.eqb c sep); [by eauto|].
  destruct (strings_Split rest sep); eauto.
Qed.

Lemma strings_Split_second (s : string) (sep : Ascii.ascii) :
  strings_Split s sep !! 1%nat = None ↔ strings_Contains s sep = false.
Proof.
  induction s as [|c rest IH]; simpl; [done|].
  destruct (Ascii.eqb c sep); simpl.
  - destruct (strings_Split_cons rest sep) as (piece & pieces & ->). done.
  - destruct (strings_Split_cons rest sep) as (piece & pieces & Hsplit).
    rewrite Hsplit in IH |- *. exact IH.
Qed.

Lemma GetErrorScript_text (err : error) :
  GetErrorScript err =
  nl +:+ "#!/bin/bash" +:+ nl +:+ "<<'###ERROR'" +:+ nl +:+ Error err +:+
  nl +:+ "###ERROR" +:+ nl +:+ "exit 1" +:+ nl +:+ tab.
Proof. reflexivity. Qed.

Lemma GetErrorScript_nonempty (err : error) : GetErrorScript err ≠ EmptyString.
Proof. rewrite GetErrorScript_text. discriminate. Qed.

Lemma waitMessage_text (instanceName : string) (registered hostsNum : Z) :
  waitMessage instanceName registered hostsNum =
  "This (" +:+ instanceName +:+ ") is instance " +:+ pretty registered +:+ "/" +:+
  pretty hostsNum +:+ " that is ready for clusterization".
Proof. reflexivity. Qed.

Lemma responseBody_respond (body : string) : responseBody (respond body) = Some body.
Proof.
  unfold responseBody, respond; simpl.
  rewrite lookup_singleton_eq. simpl. by rewrite lookup_singleton_eq.
Qed.

(** ** The store call *)

Lemma AddInstanceToState_calls cloud a b c d id w :
  storeCalls (AddInstanceToState cloud a b c d id w).1 = id :: storeCalls w.
Proof.
  unfold AddInstanceToState.
  destruct (storeFailure cloud); [done|].
  case_bool_decide; [done|]. by destruct (_ =? _).
Qed.

(** What a store call that goes through does to the blob. *)
Lemma AddInstanceToState_Ok cloud a b c d id w w' state :
  AddInstanceToState cloud a b c d id w = (w', Ok state) →
  blob w' = state ∧ InitialSize state = InitialSize (blob w) ∧
  (((id ∈ Instances (blob w)) ∧ state = blob w) ∨
   ((id ∉ Instances (blob w)) ∧
    Z.of_nat (length (Instances (blob w))) ≠ InitialSize (blob w) ∧
    Instances state = Instances (blob w) ++ [id])).
Proof.
  unfold AddInstanceToState.
  destruct (storeFailure cloud); [done|].
  case_bool_decide as Hin.
  - intros [= <- <-]. simpl. split_and!; [done..|]. by left.
  - destruct (Z.eqb_spec (Z.of_nat (length (Instances (blob w)))) (InitialSize (blob w)));
      [done|].
    intros [= <- <-]. simpl. split_and!; [done..|]. by right.
Qed.

Lemma AddInstanceToState_Err cloud a b c d id w w' err :
  AddInstanceToState cloud a b c d id w = (w', Err err) → blob w' = blob w.
Proof.
  unfold AddInstanceToState.
  destruct (storeFailure cloud); [by intros [= <- _]|].
  case_bool_decide; [done|].
  destruct (_ =? _); [by intros [= <- _]|done].
Qed.

(** A run of [Clusterize] calls the store exactly once. *)
Lemma ClusterizeInstruction_calls_store cloud p w :
  storeCalls (ClusterizeInstruction cloud p w).1 = registeredName cloud p :: storeCalls w.
Proof.
  unfold ClusterizeInstruction.
  pose proof (AddInstanceToState_calls cloud (SubscriptionId p) (ResourceGroupName p)
                (StateStorageName p) (StateContainerName p) (registeredName cloud p) w) as Hcalls.
  destruct (AddInstanceToState _ _ _ _ _ _ _) as [w' [state|err]]; simpl in *.
  - destruct (GetKeyVaultValue _ _ _); [|done].
    by destruct (_ =? _).
  - by destruct (isShutdownRequired err).
Qed.

(** The instruction is rendered, the world is the one [ClusterizeInstruction]
    leaves. *)
Lemma Clusterize_render cloud p w w' i :
  ClusterizeInstruction cloud p w = (w', Done i) →
  Clusterize cloud p w = (w', Done (render i)).
Proof. unfold Clusterize. by intros ->. Qed.

Lemma Clusterize_world cloud p w :
  (Clusterize cloud p w).1 = (ClusterizeInstruction cloud p w).1.
Proof. unfold Clusterize. by destruct (ClusterizeInstruction cloud p w). Qed.

(** ** Missing node identifier *)

(** C9. A request whose [vm] field is empty is answered at once with the
    message "Cluster name wasn't supplied"; [Clusterize] is not run, so the
    state blob, its [Instances] and the record of store calls are what they
    were before the request. *)
Theorem Handler_missing_vm cloud data w (Hmissing : Vm data = EmptyString) :
  ∃ w', Handler cloud (InvokeRequest (ReqObject (BodyString (Some data)))) w =
          (w', Done (Some (respond "Cluster name wasn't supplied"))) ∧
        responseBody (respond "Cluster name wasn't supplied") =
          Some "Cluster name wasn't supplied" ∧
        w' = w ∧
        Instances (blob w') = Instances (blob w) ∧
        storeCalls w' = storeCalls w.
Proof.
  exists w. unfold Handler. rewrite Hmissing. simpl.
  split; [done|]. split; [apply responseBody_respond|done].
Qed.

(** ** Overflow *)

Lemma ClusterizeInstruction_store_error cloud p w w' err :
  AddInstanceToState cloud (SubscriptionId p) (ResourceGroupName p) (StateStorageName p)
    (StateContainerName p) (registeredName cloud p) w = (w', Err err) →
  ClusterizeInstruction cloud p w =
    (w', Done (if isShutdownRequired err then ShutDown else ErrorScript err)).
Proof.
  intros Hadd. unfold ClusterizeInstruction. rewrite Hadd.
  by destruct (isShutdownRequired err).
Qed.

(** C3. When the store can be reached, holds as many identifiers as the
    cluster is expected to have, and the caller's identifier is not one of
    them, the store signals the overflow and [Clusterize] returns the
    shutdown script, which is the dedented text of the two lines
    "#!/bin/bash" and "shutdown now": the instruction is [ShutDown], hence
    no wait, no cluster formation and no error script, and nothing is
    appended. *)
Theorem overflow_shutdown cloud p w
    (Hreach : storeFailure cloud = None)
    (Hnew : registeredName cloud p ∉ Instances (blob w))
    (Hfull : Z.of_nat (length (Instances (blob w))) = InitialSize (blob w)) :
  ∃ w' m,
    AddInstanceToState cloud (SubscriptionId p) (ResourceGroupName p) (StateStorageName p)
      (StateContainerName p) (registeredName cloud p) w = (w', Err (ShutdownRequired m)) ∧
    ClusterizeInstruction cloud p w = (w', Done ShutDown) ∧
    Clusterize cloud p w = (w', Done GetShutdownScript) ∧
    Clusterize cloud p w =
      (w', Done (Dedent (nl +:+
                         tab +:+ "#!/bin/bash" +:+ nl +:+
                         tab +:+ "shutdown now" +:+ nl +:+
                         tab))) ∧
    blob w' = blob w ∧
    (∀ msg reportFunction,
       ClusterizeInstruction cloud p w ≠ (w', Done (Wait msg reportFunction))) ∧
    (∀ script, ClusterizeInstruction cloud p w ≠ (w', Done (FormCluster script))) ∧
    (∀ err, ClusterizeInstruction cloud p w ≠ (w', Done (ErrorScript err))) ∧
    (∀ err reportFunction,
       ClusterizeInstruction cloud p w ≠ (w', Done (ReportedError err reportFunction))).
Proof.
  assert (∃ w' m,
    AddInstanceToState cloud (SubscriptionId p) (ResourceGroupName p) (StateStorageName p)
      (StateContainerName p) (registeredName cloud p) w = (w', Err (ShutdownRequired m)) ∧
    blob w' = blob w) as (w' & m & Hadd & Hblob).
  { unfold AddInstanceToState. rewrite Hreach.
    rewrite bool_decide_eq_false_2 by done.
    rewrite (proj2 (Z.eqb_eq _ _) Hfull). eauto. }
  pose proof (ClusterizeInstruction_store_error _ _ _ _ _ Hadd) as Hrun. simpl in Hrun.
  pose proof (Clusterize_render _ _ _ _ ShutDown Hrun) as Hscript.
  exists w', m. split_and!.
  - exact Hadd.
  - exact Hrun.
  - exact Hscript.
  - exact Hscript.
  - exact Hblob.
  - intros ??. by rewrite Hrun.
  - intros ?. by rewrite Hrun.
  - intros ?. by rewrite Hrun.
  - intros ??. by rewrite Hrun.
Qed.

(** ** Idempotence *)

Lemma AddInstanceToState_present cloud a b c d id w :
  storeFailure cloud = None → id ∈ Instances (blob w) →
  AddInstanceToState cloud a b c d id w =
    ({| blob := blob w; storeCalls := id :: storeCalls w |}, Ok (blob w)).
Proof.
  intros Hreach Hin. unfold AddInstanceToState.
  rewrite Hreach. by rewrite bool_decide_eq_true_2.
Qed.

(** C6. When the store can be reached and already holds the identifier,
    registering it again changes nothing: the call returns the state the
    store holds, with the same [Instances] and the same length; and if the
    store was left by an earlier registration of that identifier, the state
    returned is the one that registration returned. *)
Theorem registration_idempotent cloud a b c d id w
    (Hreach : storeFailure cloud = None)
    (Hin : id ∈ Instances (blob w)) :
  ∃ w',
    AddInstanceToState cloud a b c d id w = (w', Ok (blob w)) ∧
    blob w' = blob w ∧
    Instances (blob w') = Instances (blob w) ∧
    length (Instances (blob w')) = length (Instances (blob w)) ∧
    (∀ cloud0 w0 state,
       AddInstanceToState cloud0 a b c d id w0 = (w, Ok state) →
       AddInstanceToState cloud a b c d id w = (w', Ok state) ∧
       Instances (blob w') = Instances state).
Proof.
  exists {| blob := blob w; storeCalls := id :: storeCalls w |}.
  pose proof (AddInstanceToState_present cloud a b c d id w Hreach Hin) as Hadd.
  split_and!; try done.
  intros cloud0 w0 state Hfirst.
  apply AddInstanceToState_Ok in Hfirst as (<- & _ & _). done.
Qed.

(** A retried invocation, with the services answering as before, finds its
    identifier in the store, leaves the blob alone and gets the instruction
    it got the first time. *)
Lemma ClusterizeInstruction_retry cloud p w w1 state i :
  AddInstanceToState cloud (SubscriptionId p) (ResourceGroupName p) (StateStorageName p)
    (StateContainerName p) (registeredName cloud p) w = (w1, Ok state) →
  ClusterizeInstruction cloud p w = (w1, i) →
  ∃ w2, ClusterizeInstruction cloud p w1 = (w2, i) ∧ blob w2 = blob w1.
Proof.
  intros Hadd Hrun.
  assert (storeFailure cloud = None) as Hreach.
  { unfold AddInstanceToState in Hadd. by destruct (storeFailure cloud). }
  apply AddInstanceToState_Ok in Hadd as Hstate. destruct Hstate as (Hblob & _ & Hcase).
  assert (registeredName cloud p ∈ Instances (blob w1)) as Hin.
  { rewrite Hblob. destruct Hcase as [[? ->]|(_ & _ & ->)]; [done|]. set_solver. }
  pose proof (AddInstanceToState_present cloud (SubscriptionId p) (ResourceGroupName p)
                (StateStorageName p) (StateContainerName p) _ w1 Hreach Hin) as Hagain.
  exists {| blob := blob w1; storeCalls := registeredName cloud p :: storeCalls w1 |}.
  split; [|done].
  unfold ClusterizeInstruction in Hrun |- *.
  rewrite Hadd in Hrun. rewrite Hagain, Hblob.
  destruct (GetKeyVaultValue _ _ _); [|by injection Hrun as <-].
  destruct (_ =? _); by injection Hrun as <-.
Qed.

(** ** After a successful append *)

Lemma ClusterizeInstruction_appended cloud p w w' state key :
  AddInstanceToState cloud (SubscriptionId p) (ResourceGroupName p) (StateStorageName p)
    (StateContainerName p) (registeredName cloud p) w = (w', Ok state) →
  GetKeyVaultValue cloud (KeyVaultUri p) "function-app-default-key" = Ok key →
  ClusterizeInstruction cloud p w =
    (w', if Z.of_nat (length (Instances state)) =? HostsNum (Cluster p) then
           match HandleLastClusterVm cloud state p (funcDefOf p key) with
           | Done (script, None) => Done (FormCluster script)
           | Done (_, Some err) => Done (ReportedError err (reportFunctionOf p key))
           | Panic m => Panic m
           end
         else Done (Wait (waitMessage (instanceNameOf p)
                            (Z.of_nat (length (Instances state))) (HostsNum (Cluster p)))
                      (reportFunctionOf p key))).
Proof.
  intros Hadd Hkey. unfold ClusterizeInstruction. rewrite Hadd, Hkey.
  fold (funcDefOf p key). fold (reportFunctionOf p key). fold (instanceNameOf p).
  destruct (_ =? _); [|done].
  by destruct (HandleLastClusterVm _ _ _ _) as [[script [err|]]|m].
Qed.

Lemma ClusterizeInstruction_key_error cloud p w w' state err :
  AddInstanceToState cloud (SubscriptionId p) (ResourceGroupName p) (StateStorageName p)
    (StateContainerName p) (registeredName cloud p) w = (w', Ok state) →
  GetKeyVaultValue cloud (KeyVaultUri p) "function-app-default-key" = Err err →
  ClusterizeInstruction cloud p w = (w', Done (ErrorScript err)).
Proof. intros Hadd Hkey. unfold ClusterizeInstruction. by rewrite Hadd, Hkey. Qed.

(** C2, as the code has it. When the append succeeds and the function key
    is read from the key vault: with fewer identifiers registered than
    [HostsNum] the instruction is the progress report whose message carries
    the number registered and [HostsNum]; with exactly [HostsNum] the
    instruction is what [HandleLastClusterVm] gives, the cluster formation
    script when it returns one and the reported error when it returns an
    error. *)
Theorem Clusterize_after_append cloud p w w' state key
    (Hadd : AddInstanceToState cloud (SubscriptionId p) (ResourceGroupName p)
              (StateStorageName p) (StateContainerName p) (registeredName cloud p) w
            = (w', Ok state))
    (Hkey : GetKeyVaultValue cloud (KeyVaultUri p) "function-app-default-key" = Ok key) :
  let registered := Z.of_nat (length (Instances state)) in
  let msg := "This (" +:+ instanceNameOf p +:+ ") is instance " +:+ pretty registered +:+
             "/" +:+ pretty (HostsNum (Cluster p)) +:+ " that is ready for clusterization" in
  (registered < HostsNum (Cluster p) →
     ClusterizeInstruction cloud p w = (w', Done (Wait msg (reportFunctionOf p key))) ∧
     Clusterize cloud p w =
       (w', Done (cloudCommon_GetScriptWithReport msg (reportFunctionOf p key)))) ∧
  (registered = HostsNum (Cluster p) →
     (∀ script, HandleLastClusterVm cloud state p (funcDefOf p key) = Done (script, None) →
        ClusterizeInstruction cloud p w = (w', Done (FormCluster script)) ∧
        Clusterize cloud p w = (w', Done script)) ∧
     (∀ script err,
        HandleLastClusterVm cloud state p (funcDefOf p key) = Done (script, Some err) →
        ClusterizeInstruction cloud p w =
          (w', Done (ReportedError err (reportFunctionOf p key))))).
Proof.
  intros registered msg.
  pose proof (ClusterizeInstruction_appended _ _ _ _ _ _ Hadd Hkey) as Hrun.
  fold registered in Hrun. split.
  - intros Hlt. destruct (Z.eqb_spec registered (HostsNum (Cluster p))); [lia|].
    rewrite waitMessage_text in Hrun. split; [done|].
    by apply (Clusterize_render _ _ _ _ (Wait msg _)).
  - intros Heq. rewrite (proj2 (Z.eqb_eq _ _) Heq) in Hrun. split.
    + intros script Hlast. rewrite Hlast in Hrun. split; [done|].
      by apply (Clusterize_render _ _ _ _ (FormCluster script)).
    + intros script err Hlast. by rewrite Hlast in Hrun.
Qed.

(** ** Assembly sub-steps *)

Lemma stepPrefix_inj (s s' : SubStep) : stepPrefix s = stepPrefix s' → s = s'.
Proof. by destruct s, s'. Qed.

Lemma assemblySteps_fails cloud p s inner :
  subStepFails cloud p s inner →
  assemblySteps cloud p = Err (Errorf (stepPrefix s) inner).
Proof.
  unfold assemblySteps, subStepFails, obsProvisioned, storageAccount, container,
    roleAssignment, privateAddresses.
  destruct s; cbv zeta.
  - intros (-> & -> & ->). done.
  - intros (-> & -> & [key ->] & ->). done.
  - intros (-> & Hcreate & Hrole).
    destruct (String.eqb_spec (AccessKey (Obs p)) EmptyString) as [Hempty|].
    + destruct (Hcreate Hempty) as [[key ->] ->]. simpl. by rewrite Hrole.
    + simpl. by rewrite Hrole.
  - intros (Hobs & Hpassword).
    destruct (SetObs (Cluster p)); [|simpl; by rewrite Hpassword].
    destruct (Hobs eq_refl) as [Hcreate Hrole].
    destruct (String.eqb_spec (AccessKey (Obs p)) EmptyString) as [Hempty|].
    + destruct (Hcreate Hempty) as [[key ->] ->]. simpl. rewrite Hrole. simpl.
      by rewrite Hpassword.
    + simpl. rewrite Hrole. simpl. by rewrite Hpassword.
  - intros (Hobs & [password Hpassword] & Hips).
    destruct (SetObs (Cluster p)); [|simpl; rewrite Hpassword; simpl; by rewrite Hips].
    destruct (Hobs eq_refl) as [Hcreate Hrole].
    destruct (String.eqb_spec (AccessKey (Obs p)) EmptyString) as [Hempty|].
    + destruct (Hcreate Hempty) as [[key ->] ->]. simpl. rewrite Hrole. simpl.
      rewrite Hpassword. simpl. by rewrite Hips.
    + simpl. rewrite Hrole. simpl. rewrite Hpassword. simpl. by rewrite Hips.
Qed.

Lemma HandleLastClusterVm_steps_error cloud state p funcDef err :
  assemblySteps cloud p = Err err →
  HandleLastClusterVm cloud state p funcDef = Done (EmptyString, Some err).
Proof. intros Hsteps. unfold HandleLastClusterVm, assemblyPlan. by rewrite Hsteps. Qed.

(** C8. When a sub-step of the assembly is reached and fails (storage
    account creation, container creation, role assignment, reading the
    cluster password, or the private address lookup), [HandleLastClusterVm]
    returns the empty script and the sub-step's error, whose text starts
    with the words of that sub-step alone; the last node, whose append made
    the count reach [HostsNum], is returned the error report built from it
    and not a cluster formation script. *)
Theorem assembly_abandoned cloud p w w' state key s inner
    (Hfail : subStepFails cloud p s inner)
    (Hadd : AddInstanceToState cloud (SubscriptionId p) (ResourceGroupName p)
              (StateStorageName p) (StateContainerName p) (registeredName cloud p) w
            = (w', Ok state))
    (Hkey : GetKeyVaultValue cloud (KeyVaultUri p) "function-app-default-key" = Ok key)
    (Hlast : Z.of_nat (length (Instances state)) = HostsNum (Cluster p)) :
  let err := Errorf (stepPrefix s) inner in
  HandleLastClusterVm cloud state p (funcDefOf p key) = Done (EmptyString, Some err) ∧
  Error err = stepPrefix s +:+ Error inner ∧
  (∀ s', stepPrefix s' = stepPrefix s → s' = s) ∧
  ClusterizeInstruction cloud p w = (w', Done (ReportedError err (reportFunctionOf p key))) ∧
  Clusterize cloud p w =
    (w', Done (cloudCommon_GetErrorScript err (reportFunctionOf p key))) ∧
  (∀ script, ClusterizeInstruction cloud p w ≠ (w', Done (FormCluster script))).
Proof.
  intros err.
  pose proof (HandleLastClusterVm_steps_error cloud state p (funcDefOf p key) _
                (assemblySteps_fails _ _ _ _ Hfail)) as Hhandle.
  pose proof (ClusterizeInstruction_appended _ _ _ _ _ _ Hadd Hkey) as Hrun.
  rewrite (proj2 (Z.eqb_eq _ _) Hlast), Hhandle in Hrun.
  split_and!; try done.
  - intros s'. apply stepPrefix_inj.
  - by apply (Clusterize_render _ _ _ _ (ReportedError _ _)).
  - intros script. by rewrite Hrun.
Qed.

(** ** Failures of the services *)

(** C5, as the code has it. An error of the store call other than the
    overflow signal, and an error reading the function key, are returned to
    the node as [GetErrorScript] of that error, a script that carries the
    error text and ends with [exit 1]; an error of the assembly is returned
    as the reported error script. A failed public address lookup is not
    returned: the node is registered under the name it sent. *)
Theorem failures_surfaced cloud p w :
  (∀ w' err,
     AddInstanceToState cloud (SubscriptionId p) (ResourceGroupName p) (StateStorageName p)
       (StateContainerName p) (registeredName cloud p) w = (w', Err err) →
     isShutdownRequired err = false →
     Clusterize cloud p w = (w', Done (GetErrorScript err))) ∧
  (∀ w' state err,
     AddInstanceToState cloud (SubscriptionId p) (ResourceGroupName p) (StateStorageName p)
       (StateContainerName p) (registeredName cloud p) w = (w', Ok state) →
     GetKeyVaultValue cloud (KeyVaultUri p) "function-app-default-key" = Err err →
     Clusterize cloud p w = (w', Done (GetErrorScript err))) ∧
  (∀ w' state key script err,
     AddInstanceToState cloud (SubscriptionId p) (ResourceGroupName p) (StateStorageName p)
       (StateContainerName p) (registeredName cloud p) w = (w', Ok state) →
     GetKeyVaultValue cloud (KeyVaultUri p) "function-app-default-key" = Ok key →
     Z.of_nat (length (Instances state)) = HostsNum (Cluster p) →
     HandleLastClusterVm cloud state p (funcDefOf p key) = Done (script, Some err) →
     Clusterize cloud p w =
       (w', Done (cloudCommon_GetErrorScript err (reportFunctionOf p key)))) ∧
  (∀ err,
     GetErrorScript err =
       nl +:+ "#!/bin/bash" +:+ nl +:+ "<<'###ERROR'" +:+ nl +:+ Error err +:+
       nl +:+ "###ERROR" +:+ nl +:+ "exit 1" +:+ nl +:+ tab) ∧
  (∀ err,
     GetPublicIp cloud (SubscriptionId p) (ResourceGroupName p)
       (GetVmScaleSetName (Prefix p) (ClusterName (Cluster p))) (Prefix p)
       (ClusterName (Cluster p)) (GetScaleSetVmIndex (instanceNameOf p)) = Err err →
     registeredName cloud p = VmName p ∧
     storeCalls (Clusterize cloud p w).1 = VmName p :: storeCalls w).
Proof.
  split_and!.
  - intros w' err Hadd Hother.
    apply (Clusterize_render _ _ _ _ (ErrorScript err)).
    rewrite (ClusterizeInstruction_store_error _ _ _ _ _ Hadd). by rewrite Hother.
  - intros w' state err Hadd Hkey.
    apply (Clusterize_render _ _ _ _ (ErrorScript err)).
    by apply (ClusterizeInstruction_key_error _ _ _ _ state).
  - intros w' state key script err Hadd Hkey Hlast Hhandle.
    apply (Clusterize_render _ _ _ _ (ReportedError err _)).
    rewrite (ClusterizeInstruction_appended _ _ _ _ _ _ Hadd Hkey).
    by rewrite (proj2 (Z.eqb_eq _ _) Hlast), Hhandle.
  - intros err. apply GetErrorScript_text.
  - intros err Hip.
    assert (registeredName cloud p = VmName p) as Hname.
    { unfold registeredName. fold (instanceNameOf p). by rewrite Hip. }
    split; [done|].
    by rewrite Clusterize_world, ClusterizeInstruction_calls_store, Hname.
Qed.

(** ** The response of the handler *)

(** C4, as the code has it. A request that decodes at the three levels is
    answered with one response whose body is the fixed message when [vm] is
    empty, and otherwise the script of the instruction [Clusterize] returns,
    when it returns; the error script of the registration path is never
    empty. A request that fails to decode at any level is logged and left
    without a response. *)
Theorem Handler_responds cloud data w :
  (Vm data = EmptyString →
     Handler cloud (InvokeRequest (ReqObject (BodyString (Some data)))) w =
       (w, Done (Some (respond "Cluster name wasn't supplied")))) ∧
  (Vm data ≠ EmptyString →
     ∀ w' i, ClusterizeInstruction cloud (paramsOf cloud (Vm data)) w = (w', Done i) →
       Handler cloud (InvokeRequest (ReqObject (BodyString (Some data)))) w =
         (w', Done (Some (respond (render i)))) ∧
       responseBody (respond (render i)) = Some (render i)) ∧
  (∀ err, render (ErrorScript err) ≠ EmptyString) ∧
  Handler cloud Undecodable w = (w, Done None) ∧
  Handler cloud (InvokeRequest ReqUndecodable) w = (w, Done None) ∧
  Handler cloud (InvokeRequest (ReqObject (BodyString None))) w = (w, Done None).
Proof.
  split_and!.
  - intros Hempty. unfold Handler. by rewrite Hempty.
  - intros Hvm w' i Hrun. split; [|apply responseBody_respond].
    unfold Handler.
    destruct (String.eqb_spec (Vm data) EmptyString) as [|_]; [done|].
    by rewrite (Clusterize_render _ _ _ _ _ Hrun).
  - intros err. apply GetErrorScript_nonempty.
  - reflexivity.
  - reflexivity.
  - reflexivity.
Qed.

(** ** The node lists of the assembly plan *)

Lemma nodeLists_colon (addresses : gmap string string) (instances names ips : list string) :
  (∀ instance, instance ∈ instances → strings_Contains instance colon = true) →
  nodeLists addresses instances names ips =
    Done (names ++ (nodeName <$> instances),
          ips ++ ((λ instance, default EmptyString (addresses !! addressKey instance))
                    <$> instances)).
Proof.
  revert names ips.
  induction instances as [|instance rest IH]; intros names ips Hcolon; simpl.
  - by rewrite !app_nil_r.
  - assert (strings_Contains instance colon = true) as Hhere
      by (apply Hcolon; set_solver).
    destruct (strings_Split instance colon !! 1%nat) as [name|] eqn:Hsecond.
    + rewrite IH by (intros; apply Hcolon; set_solver).
      unfold nodeName, addressKey. rewrite Hsecond. simpl.
      by rewrite <- !app_assoc.
    + apply strings_Split_second in Hsecond. congruence.
Qed.

Lemma nodeLists_no_colon (addresses : gmap string string) (instances names ips : list string) :
  (∃ instance, instance ∈ instances ∧ strings_Contains instance colon = false) →
  nodeLists addresses instances names ips = Panic "index out of range [1] with length 1".
Proof.
  revert names ips.
  induction instances as [|instance rest IH]; intros names ips (bad & Hin & Hbad); simpl.
  - set_solver.
  - destruct (strings_Split instance colon !! 1%nat) as [name|] eqn:Hsecond; [|done].
    apply IH. exists bad. split; [|done].
    apply elem_of_cons in Hin as [->|Hin]; [|done].
    apply strings_Split_second in Hbad. congruence.
Qed.

Lemma all_or_one (instances : list string) :
  (∀ instance, instance ∈ instances → strings_Contains instance colon = true) ∨
  (∃ instance, instance ∈ instances ∧ strings_Contains instance colon = false).
Proof.
  induction instances as [|instance rest [IH|(bad & Hin & Hbad)]].
  - left. set_solver.
  - destruct (strings_Contains instance colon) eqn:Hhere.
    + left. intros i [->|Hi]%elem_of_cons; auto.
    + right. exists instance. split; [set_solver|done].
  - right. exists bad. split; [set_solver|done].
Qed.

Lemma assemblySteps_addresses cloud p p' password addresses :
  assemblySteps cloud p = Ok (p', password, addresses) →
  privateAddresses cloud p = Ok addresses.
Proof.
  unfold assemblySteps, privateAddresses. cbv zeta.
  destruct (SetObs (Cluster p)).
  - destruct (String.eqb (AccessKey (Obs p)) EmptyString).
    + destruct (CreateStorageAccount _ _ _ _ _); simpl; [|done].
      destruct (CreateContainer _ _ _); simpl; [done|].
      destruct (AssignStorageBlobDataContributorRoleToScaleSet _ _ _ _ _ _); simpl; [done|].
      destruct (GetWekaClusterPassword _ _); simpl; [|done].
      destruct (GetVmsPrivateIps _ _ _ _); simpl; [|done]. by intros [= _ _ ->].
    + simpl.
      destruct (AssignStorageBlobDataContributorRoleToScaleSet _ _ _ _ _ _); simpl; [done|].
      destruct (GetWekaClusterPassword _ _); simpl; [|done].
      destruct (GetVmsPrivateIps _ _ _ _); simpl; [|done]. by intros [= _ _ ->].
  - simpl.
    destruct (GetWekaClusterPassword _ _); simpl; [|done].
    destruct (GetVmsPrivateIps _ _ _ _); simpl; [|done]. by intros [= _ _ ->].
Qed.

Lemma assemblyPlan_colon cloud state p p' password addresses :
  assemblySteps cloud p = Ok (p', password, addresses) →
  (∀ instance, instance ∈ Instances state → strings_Contains instance colon = true) →
  assemblyPlan cloud state p =
    Done (Ok (clusterParamsOf p' password (nodeName <$> Instances state)
                ((λ instance, default EmptyString (addresses !! addressKey instance))
                   <$> Instances state))).
Proof.
  intros Hsteps Hcolon. unfold assemblyPlan. rewrite Hsteps.
  by rewrite (nodeLists_colon _ _ _ _ Hcolon).
Qed.

Lemma assemblyPlan_no_colon cloud state p p' password addresses :
  assemblySteps cloud p = Ok (p', password, addresses) →
  (∃ instance, instance ∈ Instances state ∧ strings_Contains instance colon = false) →
  assemblyPlan cloud state p = Panic "index out of range [1] with length 1".
Proof.
  intros Hsteps Hbad. unfold assemblyPlan. rewrite Hsteps.
  by rewrite (nodeLists_no_colon _ _ _ _ Hbad).
Qed.

(** A plan is built only when every sub-step went through and every
    registered identifier has a ":". *)
Lemma assemblyPlan_built cloud state p plan :
  assemblyPlan cloud state p = Done (Ok plan) →
  (∃ p' password addresses, assemblySteps cloud p = Ok (p', password, addresses)) ∧
  (∀ instance, instance ∈ Instances state → strings_Contains instance colon = true).
Proof.
  intros Hplan.
  destruct (assemblySteps cloud p) as [[[p' password] addresses]|err] eqn:Hsteps.
  - split; [by eauto|].
    destruct (all_or_one (Instances state)) as [|Hbad]; [done|].
    by rewrite (assemblyPlan_no_colon _ _ _ _ _ _ Hsteps Hbad) in Hplan.
  - unfold assemblyPlan in Hplan. by rewrite Hsteps in Hplan.
Qed.

(** C7, as the code has it. When the sub-steps go through and every
    registered identifier has its ":" (that is, whenever a plan is built),
    the plan handed to the script generator has one node name and one
    address for each of the N identifiers of [state.Instances], at the same
    position: the name is the second piece of the identifier and the
    address is what the private address map holds for its first piece, the
    empty string of a Go map when it holds nothing for it. *)
Theorem assembly_plan_nodes cloud state p funcDef p' password addresses
    (Hsteps : assemblySteps cloud p = Ok (p', password, addresses))
    (Hcolon : ∀ instance, instance ∈ Instances state →
                strings_Contains instance colon = true) :
  ∃ plan,
    assemblyPlan cloud state p = Done (Ok plan) ∧
    HandleLastClusterVm cloud state p funcDef =
      Done (GetClusterizeScript plan funcDef, None) ∧
    privateAddresses cloud p = Ok addresses ∧
    length (VMNames plan) = length (Instances state) ∧
    length (IPs plan) = length (Instances state) ∧
    ∀ (i : nat) instance, Instances state !! i = Some instance →
      ∃ key name,
        strings_Split instance colon !! 0%nat = Some key ∧
        strings_Split instance colon !! 1%nat = Some name ∧
        VMNames plan !! i = Some name ∧
        IPs plan !! i = Some (default EmptyString (addresses !! key)).
Proof.
  pose proof (assemblyPlan_colon _ _ _ _ _ _ Hsteps Hcolon) as Hplan.
  eexists. split; [exact Hplan|].
  split_and!.
  - unfold HandleLastClusterVm. by rewrite Hplan.
  - by apply (assemblySteps_addresses _ _ p' password).
  - simpl. by rewrite length_fmap.
  - simpl. by rewrite length_fmap.
  - intros i instance Hi. simpl.
    destruct (strings_Split_cons instance colon) as (key & pieces & Hsplit).
    destruct (strings_Split instance colon !! 1%nat) as [name|] eqn:Hsecond.
    + exists key, name. rewrite !list_lookup_fmap, Hi. simpl.
      unfold nodeName, addressKey. rewrite Hsecond, Hsplit. done.
    + apply strings_Split_second in Hsecond.
      rewrite Hcolon in Hsecond; [done|]. by apply list_elem_of_lookup_2 in Hi.
Qed.

(** ** Identifiers without a separator *)

Lemma append_empty_r (s : string) : s +:+ EmptyString = s.
Proof.
  induction s as [|c rest IH]; [done|].
  change (String c (rest +:+ EmptyString) = String c rest). by rewrite IH.
Qed.

Lemma strings_Contains_app (s t : string) (c : Ascii.ascii) :
  strings_Contains (s +:+ t) c = strings_Contains s c || strings_Contains t c.
Proof.
  induction s as [|c' rest IH]; [done|].
  change (Ascii.eqb c' c || strings_Contains (rest +:+ t) c =
          Ascii.eqb c' c || strings_Contains rest c || strings_Contains t c).
  rewrite IH. by rewrite orb_assoc.
Qed.

Lemma registeredName_with_address cloud p ip :
  GetPublicIp cloud (SubscriptionId p) (ResourceGroupName p)
    (GetVmScaleSetName (Prefix p) (ClusterName (Cluster p))) (Prefix p)
    (ClusterName (Cluster p)) (GetScaleSetVmIndex (instanceNameOf p)) = Ok ip →
  registeredName cloud p = VmName p +:+ ":" +:+ ip ∧
  strings_Contains (registeredName cloud p) colon = true.
Proof.
  intros Hip.
  assert (registeredName cloud p = VmName p +:+ ":" +:+ ip) as ->.
  { unfold registeredName. fold (instanceNameOf p). rewrite Hip. simpl.
    by rewrite append_empty_r. }
  split; [done|]. rewrite strings_Contains_app. simpl. apply orb_true_r.
Qed.

(** C10, as the code has it. If one of the sub-steps before the loop fails,
    [HandleLastClusterVm] returns that error whatever the identifiers are.
    Once they have gone through, it panics with an index out of range as
    soon as one registered identifier has no ":", and returns a script when
    all have one. [Clusterize] registers the name the caller sent, without
    an address, when the public address lookup fails, so a name sent
    without ":" is registered without one; when the lookup succeeds the
    registered identifier always has one. *)
Theorem HandleLastClusterVm_needs_colons cloud state p funcDef :
  match assemblySteps cloud p with
  | Err err => HandleLastClusterVm cloud state p funcDef = Done (EmptyString, Some err)
  | Ok _ =>
      ((∃ instance, instance ∈ Instances state ∧
                    strings_Contains instance colon = false) →
       HandleLastClusterVm cloud state p funcDef =
         Panic "index out of range [1] with length 1") ∧
      ((∀ instance, instance ∈ Instances state →
                    strings_Contains instance colon = true) →
       ∃ script, HandleLastClusterVm cloud state p funcDef = Done (script, None))
  end ∧
  (∀ w err,
     GetPublicIp cloud (SubscriptionId p) (ResourceGroupName p)
       (GetVmScaleSetName (Prefix p) (ClusterName (Cluster p))) (Prefix p)
       (ClusterName (Cluster p)) (GetScaleSetVmIndex (instanceNameOf p)) = Err err →
     registeredName cloud p = VmName p ∧
     (storeFailure cloud = None →
      VmName p ∉ Instances (blob w) →
      Z.of_nat (length (Instances (blob w))) ≠ InitialSize (blob w) →
      Instances (blob (ClusterizeInstruction cloud p w).1) =
        Instances (blob w) ++ [VmName p])) ∧
  (∀ ip,
     GetPublicIp cloud (SubscriptionId p) (ResourceGroupName p)
       (GetVmScaleSetName (Prefix p) (ClusterName (Cluster p))) (Prefix p)
       (ClusterName (Cluster p)) (GetScaleSetVmIndex (instanceNameOf p)) = Ok ip →
     strings_Contains (registeredName cloud p) colon = true).
Proof.
  split_and!.
  - destruct (assemblySteps cloud p) as [[[p' password] addresses]|err] eqn:Hsteps.
    + split.
      * intros Hbad. unfold HandleLastClusterVm.
        by rewrite (assemblyPlan_no_colon _ _ _ _ _ _ Hsteps Hbad).
      * intros Hcolon. unfold HandleLastClusterVm.
        rewrite (assemblyPlan_colon _ _ _ _ _ _ Hsteps Hcolon). simpl. eauto.
    + by apply HandleLastClusterVm_steps_error.
  - intros w err Hip.
    assert (registeredName cloud p = VmName p) as Hname.
    { unfold registeredName. fold (instanceNameOf p). by rewrite Hip. }
    split; [done|]. intros Hreach Hnew Hroom.
    unfold ClusterizeInstruction. rewrite Hname.
    unfold AddInstanceToState. rewrite Hreach.
    rewrite bool_decide_eq_false_2 by done.
    destruct (Z.eqb_spec (Z.of_nat (length (Instances (blob w)))) (InitialSize (blob w)));
      [done|].
    destruct (GetKeyVaultValue _ _ _); [|done].
    by destruct (_ =? _).
  - intros ip Hip. by apply (registeredName_with_address _ _ ip).
Qed.

(** ** The barrier over a sequence of registrations *)

Lemma registerAll_cons call rest w :
  registerAll (call :: rest) w =
    ((registerAll rest (ClusterizeInstruction call.1 call.2 w).1).1,
     (ClusterizeInstruction call.1 call.2 w).2 ::
     (registerAll rest (ClusterizeInstruction call.1 call.2 w).1).2).
Proof.
  simpl. destruct (ClusterizeInstruction call.1 call.2 w) as [w1 i]. simpl.
  by destruct (registerAll rest w1).
Qed.

(** The [k]-th instruction is the one of the [k]-th call, run on the store
    the calls before it left. *)
Lemma registerAll_lookup calls w (k : nat) call :
  calls !! k = Some call →
  (registerAll calls w).2 !! k =
    Some (ClusterizeInstruction call.1 call.2 (registerAll (take k calls) w).1).2.
Proof.
  revert w k. induction calls as [|first rest IH]; intros w k Hk; [done|].
  rewrite registerAll_cons. destruct k as [|k]; simpl in Hk.
  - by injection Hk as ->.
  - simpl take. rewrite registerAll_cons. simpl. by apply IH.
Qed.

(** The three ways an invocation can go, by what the store and the key
    vault answer. *)
Lemma ClusterizeInstruction_call call w :
  ClusterizeInstruction call.1 call.2 w =
    ((addCall call w).1,
     match (addCall call w).2 with
     | Err err => Done (if isShutdownRequired err then ShutDown else ErrorScript err)
     | Ok state =>
         match functionKey call with
         | Err err => Done (ErrorScript err)
         | Ok key =>
             if Z.of_nat (length (Instances state)) =? HostsNum (Cluster call.2) then
               match HandleLastClusterVm call.1 state call.2 (funcDefOf call.2 key) with
               | Done (script, None) => Done (FormCluster script)
               | Done (_, Some err) => Done (ReportedError err (reportFunctionOf call.2 key))
               | Panic m => Panic m
               end
             else Done (Wait (waitMessage (instanceNameOf call.2)
                                (Z.of_nat (length (Instances state)))
                                (HostsNum (Cluster call.2)))
                          (reportFunctionOf call.2 key))
         end
     end).
Proof.
  unfold addCall, functionKey, nameOfCall.
  destruct (AddInstanceToState _ _ _ _ _ _ _) as [w' [state|err]] eqn:Hadd; simpl.
  - destruct (GetKeyVaultValue _ _ _) as [key|err] eqn:Hkey.
    + by apply ClusterizeInstruction_appended.
    + by apply (ClusterizeInstruction_key_error _ _ _ _ state).
  - by apply ClusterizeInstruction_store_error.
Qed.

Lemma assembles_last (x : exec (string * option error)) (reportFunction : string) :
  assembles match x with
            | Done (script, None) => Done (FormCluster script)
            | Done (_, Some err) => Done (ReportedError err reportFunction)
            | Panic m => Panic m
            end = true.
Proof. by destruct x as [[script [err|]]|m]. Qed.

(** An invocation takes the assembly branch exactly when its append goes
    through, leaves [HostsNum] identifiers, and the function key is read. *)
Lemma assembles_iff call w :
  assembles (ClusterizeInstruction call.1 call.2 w).2 = true ↔
  ∃ w' state key,
    addCall call w = (w', Ok state) ∧
    Z.of_nat (length (Instances state)) = HostsNum (Cluster call.2) ∧
    functionKey call = Ok key.
Proof.
  rewrite ClusterizeInstruction_call. simpl.
  destruct (addCall call w) as [w1 [state|err]] eqn:Hadd; simpl.
  - destruct (functionKey call) as [key|err] eqn:Hkey.
    + destruct (Z.eqb_spec (Z.of_nat (length (Instances state)))
                  (HostsNum (Cluster call.2))) as [Heq|Hne].
      * rewrite assembles_last. split; [|done]. intros _. by exists w1, state, key.
      * simpl. split; [done|]. intros (? & ? & ? & [= _ <-] & ? & _). done.
    + simpl. split; [done|]. intros (? & ? & ? & _ & _ & ?). done.
  - split.
    + by destruct (isShutdownRequired err).
    + intros (? & ? & ? & ? & _). done.
Qed.

Lemma addCall_blob call w :
  InitialSize (blob (addCall call w).1) = InitialSize (blob w) ∧
  match (addCall call w).2 with
  | Err _ => blob (addCall call w).1 = blob w
  | Ok state =>
      blob (addCall call w).1 = state ∧
      (nameOfCall call ∉ Instances (blob w) →
       Z.of_nat (length (Instances (blob w))) ≠ InitialSize (blob w) ∧
       Instances state = Instances (blob w) ++ [nameOfCall call])
  end.
Proof.
  destruct (addCall call w) as [w' [state|err]] eqn:Hadd; simpl; unfold addCall in Hadd.
  - apply AddInstanceToState_Ok in Hadd as (Hblob & Hsize & Hcase).
    rewrite Hblob. split_and!; [done..|].
    intros Hnew. by destruct Hcase as [[? _]|[_ ?]].
  - apply AddInstanceToState_Err in Hadd. by rewrite Hadd.
Qed.

Lemma length_snoc_Z (l : list string) (x : string) :
  Z.of_nat (length (l ++ [x])) = Z.of_nat (length l) + 1.
Proof. rewrite length_app. simpl. lia. Qed.

Lemma filter_assembles_true r (l : list (exec Instruction)) :
  assembles r = true →
  filter (λ r, Is_true (assembles r)) (r :: l) = r :: filter (λ r, Is_true (assembles r)) l.
Proof. intros Hr. apply filter_cons_True. cbv beta. rewrite Hr. exact I. Qed.

Lemma filter_assembles_false r (l : list (exec Instruction)) :
  assembles r = false →
  filter (λ r, Is_true (assembles r)) (r :: l) = filter (λ r, Is_true (assembles r)) l.
Proof. intros Hr. apply filter_cons_False. cbv beta. rewrite Hr. exact id. Qed.

(** With identifiers all new and distinct, at most one invocation of the
    sequence takes the assembly branch, and none once the store holds [N]
    identifiers or more. *)
Lemma at_most_one (N : Z) (calls : list (Cloud * ClusterizationParams)) w :
  InitialSize (blob w) = N →
  (∀ call, call ∈ calls → HostsNum (Cluster call.2) = N) →
  NoDup (nameOfCall <$> calls) →
  (∀ call, call ∈ calls → nameOfCall call ∉ Instances (blob w)) →
  (length (filter (λ r, Is_true (assembles r)) (registerAll calls w).2) ≤
   if bool_decide (Z.of_nat (length (Instances (blob w))) < N)%Z then 1 else 0)%nat.
Proof.
  revert w. induction calls as [|call rest IH]; intros w Hsize Hhosts Hunique Hnew.
  { simpl. lia. }
  rewrite registerAll_cons. cbn [snd].
  apply NoDup_cons in Hunique as [Hfirst Hunique].
  pose proof (addCall_blob call w) as [Hsize' Hblob].
  pose proof (assembles_iff call w) as Hbranch.
  assert (Hw1 : (ClusterizeInstruction call.1 call.2 w).1 = (addCall call w).1)
    by (by rewrite ClusterizeInstruction_call).
  assert (Hhosts' : ∀ c, c ∈ rest → HostsNum (Cluster c.2) = N)
    by (intros; apply Hhosts; by apply list_elem_of_further).
  specialize (IH (addCall call w).1).
  rewrite Hw1.
  destruct (addCall call w) as [w1 [state|err]] eqn:Hadd; simpl in *.
  - destruct Hblob as [Hblob Happend].
    destruct Happend as [Hroom Happend]; [apply Hnew; apply list_elem_of_here|].
    assert (Hlen : Z.of_nat (length (Instances (blob w1))) =
                   Z.of_nat (length (Instances (blob w))) + 1)
      by (by rewrite Hblob, Happend, length_snoc_Z).
    assert (Hrest : (length (filter (λ r, Is_true (assembles r)) (registerAll rest w1).2) ≤
               if bool_decide (Z.of_nat (length (Instances (blob w1))) < N)%Z
               then 1 else 0)%nat).
    { apply IH; [congruence|done..|].
      intros c Hc. rewrite Hblob, Happend. apply not_elem_of_app. split.
      - apply Hnew. by apply list_elem_of_further.
      - intros Hsame%list_elem_of_singleton. apply Hfirst.
        rewrite <- Hsame. by apply list_elem_of_fmap_2. }
    rewrite Hlen in Hrest.
    destruct (assembles (ClusterizeInstruction call.1 call.2 w).2) eqn:Hassembles.
    + rewrite filter_assembles_true by done.
      destruct (proj1 Hbranch eq_refl) as (? & state' & key & [= _ <-] & Hlast & _).
      rewrite (Hhosts call) in Hlast by apply list_elem_of_here.
      rewrite Hblob in Hlen.
      rewrite bool_decide_eq_false_2 in Hrest by lia.
      rewrite bool_decide_eq_true_2 by lia. simpl. lia.
    + rewrite filter_assembles_false by done.
      repeat case_bool_decide; lia.
  - assert (assembles (ClusterizeInstruction call.1 call.2 w).2 = false) as Hassembles.
    { destruct (assembles _); [|done].
      by destruct (proj1 Hbranch eq_refl) as (? & ? & ? & ? & _). }
    rewrite filter_assembles_false by done.
    rewrite <- Hblob. apply IH; [congruence|done..|].
    intros c Hc. rewrite Hblob. apply Hnew. by apply list_elem_of_further.
Qed.

(** One answered invocation with a new identifier: it is appended while
    there is room and gets the outcome of its position, and is turned away
    without a change once the store is full. *)
Lemma answered_step (N : Z) call w :
  InitialSize (blob w) = N →
  Z.of_nat (length (Instances (blob w))) ≤ N →
  HostsNum (Cluster call.2) = N →
  answered call →
  nameOfCall call ∉ Instances (blob w) →
  outcomeAt N call (Z.of_nat (length (Instances (blob w))) + 1)
    (ClusterizeInstruction call.1 call.2 w).2 ∧
  ((Z.of_nat (length (Instances (blob w))) < N ∧
    InitialSize (blob (ClusterizeInstruction call.1 call.2 w).1) = N ∧
    Instances (blob (ClusterizeInstruction call.1 call.2 w).1) =
      Instances (blob w) ++ [nameOfCall call]) ∨
   (Z.of_nat (length (Instances (blob w))) = N ∧
    blob (ClusterizeInstruction call.1 call.2 w).1 = blob w)).
Proof.
  intros Hsize Hle Hhosts [Hreach [key Hkey]] Hnew.
  rewrite ClusterizeInstruction_call. simpl.
  unfold addCall, AddInstanceToState. rewrite Hreach.
  rewrite bool_decide_eq_false_2 by done. rewrite Hsize.
  destruct (Z.eqb_spec (Z.of_nat (length (Instances (blob w)))) N) as [Hfull|Hroom]; simpl.
  - split; [|by right]. unfold outcomeAt. split_and!; [lia|lia|done].
  - rewrite Hkey, Hhosts, length_snoc_Z. split; [|left; split_and!; [lia|done..]].
    unfold outcomeAt.
    destruct (Z.eqb_spec (Z.of_nat (length (Instances (blob w))) + 1) N) as [Hlast|Hnot].
    + split_and!; [lia| |lia]. intros _. apply assembles_last.
    + split_and!; [|lia|lia]. intros _. by exists key.
Qed.

(** When every invocation is answered by the store and the key vault, the
    [k]-th new identifier to arrive at a store holding [m] gets the outcome
    of position [m + k + 1]. *)
Lemma answered_run (N : Z) (calls : list (Cloud * ClusterizationParams)) w :
  InitialSize (blob w) = N →
  Z.of_nat (length (Instances (blob w))) ≤ N →
  (∀ call, call ∈ calls → HostsNum (Cluster call.2) = N) →
  NoDup (nameOfCall <$> calls) →
  (∀ call, call ∈ calls → nameOfCall call ∉ Instances (blob w)) →
  (∀ call, call ∈ calls → answered call) →
  ∀ (k : nat) call, calls !! k = Some call →
    ∃ r, (registerAll calls w).2 !! k = Some r ∧
         outcomeAt N call (Z.of_nat (length (Instances (blob w))) + Z.of_nat k + 1) r.
Proof.
  revert w.
  induction calls as [|first rest IH];
    intros w Hsize Hle Hhosts Hunique Hnew Hanswered k call Hk; [done|].
  apply NoDup_cons in Hunique as [Hfirst Hunique].
  destruct (answered_step N first w) as [Hout Hworld];
    [done|done|apply Hhosts; set_solver|apply Hanswered; set_solver|apply Hnew; set_solver|].
  rewrite registerAll_cons. cbn [snd].
  destruct k as [|k]; simpl in Hk.
  - injection Hk as <-. eexists. split; [done|].
    by replace (Z.of_nat (length (Instances (blob w))) + Z.of_nat 0 + 1)
      with (Z.of_nat (length (Instances (blob w))) + 1) by lia.
  - simpl lookup.
    set (w1 := (ClusterizeInstruction first.1 first.2 w).1) in *.
    assert (Hrest : ∃ r, (registerAll rest w1).2 !! k = Some r ∧
              outcomeAt N call (Z.of_nat (length (Instances (blob w1))) + Z.of_nat k + 1) r).
    { destruct Hworld as [(Hlt & Hsize1 & Happend)|[Hfull Hsame]].
      - apply IH; try done.
        + rewrite Happend, length_snoc_Z. lia.
        + intros; apply Hhosts; set_solver.
        + intros c Hc. rewrite Happend. apply not_elem_of_app. split.
          * apply Hnew. set_solver.
          * intros Hsame%list_elem_of_singleton. apply Hfirst.
            rewrite <- Hsame. by apply list_elem_of_fmap_2.
        + intros; apply Hanswered; set_solver.
      - apply IH; try done.
        + by rewrite Hsame.
        + by rewrite Hsame.
        + intros; apply Hhosts; set_solver.
        + intros c Hc. rewrite Hsame. apply Hnew. set_solver.
        + intros; apply Hanswered; set_solver. }
    destruct Hrest as (r & Hr & Hat). exists r. split; [done|].
    destruct Hworld as [(Hlt & Hsize1 & Happend)|[Hfull Hsame]].
    + rewrite Happend, length_snoc_Z in Hat.
      by replace (Z.of_nat (length (Instances (blob w))) + Z.of_nat (S k) + 1)
        with (Z.of_nat (length (Instances (blob w))) + 1 + Z.of_nat k + 1) by lia.
    + rewrite Hsame in Hat. destruct Hat as (_ & _ & Hshut).
      unfold outcomeAt. split_and!; [lia|lia|]. intros _. apply Hshut. lia.
Qed.

Lemma filter_assembles_member r (l : list (exec Instruction)) :
  r ∈ l → assembles r = true →
  (1 ≤ length (filter (λ r, Is_true (assembles r)) l))%nat.
Proof.
  intros Hin Hr.
  assert (r ∈ filter (λ r, Is_true (assembles r)) l) as Hfiltered.
  { apply list_elem_of_filter. split; [|done]. cbv beta. by rewrite Hr. }
  destruct (filter _ l); [by apply not_elem_of_nil in Hfiltered|simpl; lia].
Qed.

(** C1, as the code has it. A fresh store of expected size [N] receives a
    serialized sequence of registrations whose identifiers are distinct and
    whose [HostsNum] is [N]. At most one invocation takes the assembly
    branch. An invocation takes it exactly when its append goes through and
    leaves [N] identifiers and its reading of the function key succeeds; an
    admitted invocation that reads the function key and does not leave [N]
    identifiers gets the progress report. When moreover the store and the
    key vault answer every invocation, the invocations before the [N]-th
    get the progress report, the [N]-th takes the assembly branch and the
    later ones are told to shut down; with at least [N >= 1] invocations
    exactly one takes the assembly branch. *)
Theorem barrier_elects_one (N : Z) (calls : list (Cloud * ClusterizationParams)) w
    (Hfresh : Instances (blob w) = [])
    (Hsize : InitialSize (blob w) = N)
    (Hhosts : ∀ call, call ∈ calls → HostsNum (Cluster call.2) = N)
    (Hunique : NoDup (nameOfCall <$> calls)) :
  (length (filter (λ r, Is_true (assembles r)) (registerAll calls w).2) ≤ 1)%nat ∧
  (∀ (k : nat) call, calls !! k = Some call →
     ∃ r, (registerAll calls w).2 !! k = Some r ∧
       (assembles r = true ↔
        ∃ w' state key,
          addCall call (registerAll (take k calls) w).1 = (w', Ok state) ∧
          Z.of_nat (length (Instances state)) = N ∧
          functionKey call = Ok key) ∧
       (∀ w' state key,
          addCall call (registerAll (take k calls) w).1 = (w', Ok state) →
          functionKey call = Ok key →
          Z.of_nat (length (Instances state)) ≠ N →
          r = Done (Wait (waitMessage (instanceNameOf call.2)
                            (Z.of_nat (length (Instances state))) N)
                      (reportFunctionOf call.2 key)))) ∧
  (0 ≤ N → (∀ call, call ∈ calls → answered call) →
     (∀ (k : nat) call, calls !! k = Some call →
        ∃ r, (registerAll calls w).2 !! k = Some r ∧ outcomeAt N call (Z.of_nat k + 1) r) ∧
     (1 ≤ N ≤ Z.of_nat (length calls) →
        length (filter (λ r, Is_true (assembles r)) (registerAll calls w).2) = 1%nat)).
Proof.
  assert (Hnew : ∀ call, call ∈ calls → nameOfCall call ∉ Instances (blob w)).
  { intros call _. rewrite Hfresh. apply not_elem_of_nil. }
  pose proof (at_most_one N calls w Hsize Hhosts Hunique Hnew) as Hmost.
  assert (Hone : (length (filter (λ r, Is_true (assembles r)) (registerAll calls w).2) ≤ 1)%nat).
  { destruct (bool_decide _) in Hmost; lia. }
  split_and!.
  - exact Hone.
  - intros k call Hk. eexists. split; [by apply registerAll_lookup|].
    assert (Hhost : HostsNum (Cluster call.2) = N)
      by (apply Hhosts; by apply list_elem_of_lookup_2 in Hk).
    split.
    + rewrite assembles_iff. by rewrite Hhost.
    + intros w' state key Hadd Hkey Hnot.
      rewrite ClusterizeInstruction_call. simpl. rewrite Hadd. simpl.
      rewrite Hkey, Hhost.
      by destruct (Z.eqb_spec (Z.of_nat (length (Instances state))) N).
  - intros Hpos Hanswered.
    assert (Hrun : ∀ (k : nat) call, calls !! k = Some call →
              ∃ r, (registerAll calls w).2 !! k = Some r ∧
                   outcomeAt N call (Z.of_nat k + 1) r).
    { intros k call Hk.
      destruct (answered_run N calls w Hsize) with (k := k) (call := call)
        as (r & Hr & Hat); try done.
      - rewrite Hfresh. simpl. lia.
      - exists r. split; [done|]. by rewrite Hfresh in Hat. }
    split; [exact Hrun|].
    intros [Hlow Hhigh].
    destruct (lookup_lt_is_Some_2 calls (Z.to_nat (N - 1))) as [call Hcall]; [lia|].
    destruct (Hrun _ _ Hcall) as (r & Hr & _ & Hlast & _).
    pose proof (filter_assembles_member r _ (list_elem_of_lookup_2 _ _ _ Hr)) as Hleast.
    specialize (Hleast (Hlast ltac:(lia))). lia.
Qed.

End Properties.

(** * The properties on the sample deployment *)

Import Sample.

Lemma threeNodes_each (P : Cloud * ClusterizationParams → Prop) :
  P (node "3" "vm0:host0") → P (node "3" "vm1:host1") → P (node "3" "vm2:host2") →
  ∀ call, call ∈ threeNodes → P call.
Proof.
  intros H0 H1 H2 call Hin. unfold threeNodes in Hin.
  repeat (apply elem_of_cons in Hin as [->|Hin]; [assumption|]).
  by apply not_elem_of_nil in Hin.
Qed.

Lemma threeRegistered_each (P : string → Prop) :
  P "vm0:host0:20.1.2.3" → P "vm1:host1:20.1.2.3" → P "vm2:host2:20.1.2.3" →
  ∀ instance, instance ∈ threeRegistered → P instance.
Proof.
  intros H0 H1 H2 instance Hin. unfold threeRegistered in Hin.
  repeat (apply elem_of_cons in Hin as [->|Hin]; [assumption|]).
  by apply not_elem_of_nil in Hin.
Qed.

(** The two fixed scripts, with the sample dedent. *)
Example shutdown_script_sample :
  GetShutdownScript = nl +:+ "#!/bin/bash" +:+ nl +:+ "shutdown now" +:+ nl.
Proof. reflexivity. Qed.

Example error_script_sample :
  GetErrorScript (unavailable "state store") =
  nl +:+ "#!/bin/bash" +:+ nl +:+ "<<'###ERROR'" +:+ nl +:+
  "state store: service unavailable" +:+ nl +:+ "###ERROR" +:+ nl +:+ "exit 1" +:+ nl +:+ tab.
Proof. reflexivity. Qed.

(** The run of the three nodes: two progress reports, then the script. *)
Example threeNodes_run :
  (registerAll threeNodes (fresh 3)).2 =
    [Done (Wait "This (vm0) is instance 1/3 that is ready for clusterization"
             (reportFunctionOf (paramsOf (healthy "3") "vm0:host0") "s3cr3t"));
     Done (Wait "This (vm1) is instance 2/3 that is ready for clusterization"
             (reportFunctionOf (paramsOf (healthy "3") "vm1:host1") "s3cr3t"));
     Done (FormCluster
             ("weka cluster create host0 host1 host2 --host-ips=10.0.0.4,10.0.0.5,10.0.0.6"
              +:+ nl))].
Proof. vm_compute. reflexivity. Qed.

Lemma barrier_elects_one_witness :
  Instances (blob (fresh 3)) = [] ∧
  InitialSize (blob (fresh 3)) = 3 ∧
  NoDup (nameOfCall <$> threeNodes) ∧
  length (filter (λ r, Is_true (assembles r)) (registerAll threeNodes (fresh 3)).2) = 1%nat.
Proof.
  assert (Hunique : NoDup (nameOfCall <$> threeNodes)).
  { apply (bool_decide_unpack _). vm_compute. exact I. }
  assert (Hhosts : ∀ call, call ∈ threeNodes → HostsNum (Cluster call.2) = 3).
  { apply threeNodes_each; reflexivity. }
  assert (Hanswered : ∀ call, call ∈ threeNodes → answered call).
  { apply threeNodes_each; (split; [reflexivity|by exists "s3cr3t"]). }
  split_and!; [reflexivity|reflexivity|exact Hunique|].
  destruct (barrier_elects_one 3 threeNodes (fresh 3) eq_refl eq_refl Hhosts Hunique)
    as (_ & _ & Hall).
  destruct (Hall ltac:(lia) Hanswered) as [_ Hexactly].
  apply Hexactly. simpl. lia.
Defined.

Lemma Clusterize_after_append_witness :
  ClusterizeInstruction (healthy "3") (paramsOf (healthy "3") "vm0:host0") (fresh 3) =
    ({| blob := {| Instances := ["vm0:host0:20.1.2.3"]; InitialSize := 3 |};
        storeCalls := ["vm0:host0:20.1.2.3"] |},
     Done (Wait "This (vm0) is instance 1/3 that is ready for clusterization"
             (reportFunctionOf (paramsOf (healthy "3") "vm0:host0") "s3cr3t"))).
Proof.
  destruct (Clusterize_after_append (healthy "3") (paramsOf (healthy "3") "vm0:host0")
              (fresh 3) _ {| Instances := ["vm0:host0:20.1.2.3"]; InitialSize := 3 |}
              "s3cr3t" eq_refl eq_refl) as [Hwait _].
  destruct Hwait as [Hinstruction _]; [reflexivity|]. exact Hinstruction.
Defined.

Lemma overflow_shutdown_witness :
  ∃ w' m,
    AddInstanceToState (healthy "3") EmptyString EmptyString EmptyString EmptyString
      "vm3:host3:20.1.2.3" (holding threeRegistered 3) = (w', Err (ShutdownRequired m)) ∧
    Clusterize (healthy "3") (paramsOf (healthy "3") "vm3:host3")
      (holding threeRegistered 3) =
      (w', Done (nl +:+ "#!/bin/bash" +:+ nl +:+ "shutdown now" +:+ nl)) ∧
    Instances (blob w') = threeRegistered.
Proof.
  destruct (overflow_shutdown (healthy "3") (paramsOf (healthy "3") "vm3:host3")
              (holding threeRegistered 3)) as (w' & m & Hadd & _ & _ & Hrun & Hblob & _).
  - reflexivity.
  - apply (bool_decide_unpack _). vm_compute. exact I.
  - reflexivity.
  - exists w', m. split_and!; [exact Hadd|exact Hrun|by rewrite Hblob].
Defined.

Lemma registration_idempotent_witness :
  ∃ w',
    AddInstanceToState (healthy "3") EmptyString EmptyString EmptyString EmptyString
      "vm0:host0:20.1.2.3" (holding ["vm0:host0:20.1.2.3"] 3) =
      (w', Ok {| Instances := ["vm0:host0:20.1.2.3"]; InitialSize := 3 |}) ∧
    length (Instances (blob w')) = 1%nat.
Proof.
  destruct (registration_idempotent (healthy "3") EmptyString EmptyString EmptyString
              EmptyString "vm0:host0:20.1.2.3" (holding ["vm0:host0:20.1.2.3"] 3))
    as (w' & Hadd & _ & _ & Hlen & _).
  - reflexivity.
  - apply (bool_decide_unpack _). vm_compute. exact I.
  - exists w'. split; [exact Hadd|exact Hlen].
Defined.

Lemma assembly_plan_nodes_witness :
  ∃ plan,
    assemblyPlan (healthy "3") {| Instances := threeRegistered; InitialSize := 3 |}
      (paramsOf (healthy "3") "vm2:host2") = Done (Ok plan) ∧
    length (VMNames plan) = 3%nat ∧
    length (IPs plan) = 3%nat.
Proof.
  destruct (assembly_plan_nodes (healthy "3")
              {| Instances := threeRegistered; InitialSize := 3 |}
              (paramsOf (healthy "3") "vm2:host2") (NewFuncDef "url" "key")
              (withAccessKey (paramsOf (healthy "3") "vm2:host2") "blobkey")
              "adminpw" privateIps)
    as (plan & Hplan & _ & _ & Hnames & Hips & _).
  - reflexivity.
  - apply threeRegistered_each; reflexivity.
  - exists plan. split_and!; [exact Hplan|exact Hnames|exact Hips].
Defined.

Lemma assembly_abandoned_witness :
  Clusterize (roleDenied "1") (paramsOf (roleDenied "1") "vm0:host0") (fresh 1) =
    ({| blob := {| Instances := ["vm0:host0:20.1.2.3"]; InitialSize := 1 |};
        storeCalls := ["vm0:host0:20.1.2.3"] |},
     Done (cloudCommon_GetErrorScript
             (Errorf "failed to assign storage blob data contributor role to scale set: "
                (errorString "authorization failed"))
             (reportFunctionOf (paramsOf (roleDenied "1") "vm0:host0") "s3cr3t"))).
Proof.
  apply (assembly_abandoned (roleDenied "1") (paramsOf (roleDenied "1") "vm0:host0")
           (fresh 1) _ {| Instances := ["vm0:host0:20.1.2.3"]; InitialSize := 1 |}
           "s3cr3t" RoleAssignment (errorString "authorization failed")).
  - split_and!; [reflexivity| |reflexivity].
    intros _. split; [by exists "blobkey"|reflexivity].
  - reflexivity.
  - reflexivity.
  - reflexivity.
Defined.

Lemma Handler_missing_vm_witness :
  ∃ w', Handler (healthy "3") (request EmptyString) (holding threeRegistered 3) =
          (w', Done (Some (respond "Cluster name wasn't supplied"))) ∧
        w' = holding threeRegistered 3.
Proof.
  destruct (Handler_missing_vm (healthy "3") {| Vm := EmptyString |}
              (holding threeRegistered 3) eq_refl) as (w' & Hrun & _ & Hsame & _).
  exists w'. split; [exact Hrun|exact Hsame].
Defined.

Lemma HandleLastClusterVm_needs_colons_witness :
  HandleLastClusterVm (publicIpDown "1") {| Instances := ["vm0"]; InitialSize := 1 |}
    (paramsOf (publicIpDown "1") "vm0") (NewFuncDef "url" "key") =
    Panic "index out of range [1] with length 1" ∧
  registeredName (publicIpDown "1") (paramsOf (publicIpDown "1") "vm0") = "vm0" ∧
  Instances (blob (ClusterizeInstruction (publicIpDown "1")
                     (paramsOf (publicIpDown "1") "vm0") (fresh 1)).1) = ["vm0"].
Proof.
  destruct (HandleLastClusterVm_needs_colons (publicIpDown "1")
              {| Instances := ["vm0"]; InitialSize := 1 |}
              (paramsOf (publicIpDown "1") "vm0") (NewFuncDef "url" "key")) as (Hloop & Hname & _).
  destruct (Hname (fresh 1) (unavailable "public ip") eq_refl) as [Hsent Happended].
  split_and!.
  - change (assemblySteps (publicIpDown "1") (paramsOf (publicIpDown "1") "vm0"))
      with (Ok (withAccessKey (paramsOf (publicIpDown "1") "vm0") "blobkey",
                "adminpw", privateIps)) in Hloop.
    apply Hloop. exists "vm0". split; [apply list_elem_of_here|reflexivity].
  - exact Hsent.
  - apply Happended; [reflexivity| |discriminate]. apply not_elem_of_nil.
Defined.

Lemma Handler_responds_witness :
  Handler (storeDown "3") (request "vm0:host0") (fresh 3) =
    ({| blob := {| Instances := []; InitialSize := 3 |};
        storeCalls := ["vm0:host0:20.1.2.3"] |},
     Done (Some (respond (GetErrorScript (unavailable "state store"))))).
Proof.
  destruct (Handler_responds (storeDown "3") {| Vm := "vm0:host0" |} (fresh 3))
    as (_ & Hrun & _).
  apply (Hrun ltac:(discriminate) _ (ErrorScript (unavailable "state store"))).
  reflexivity.
Defined.

Lemma failures_surfaced_witness :
  Clusterize (storeDown "3") (paramsOf (storeDown "3") "vm0:host0") (fresh 3) =
    ({| blob := {| Instances := []; InitialSize := 3 |};
        storeCalls := ["vm0:host0:20.1.2.3"] |},
     Done (GetErrorScript (unavailable "state store"))) ∧
  registeredName (publicIpDown "3") (paramsOf (publicIpDown "3") "vm0:host0") = "vm0:host0".
Proof.
  split.
  - destruct (failures_surfaced (storeDown "3") (paramsOf (storeDown "3") "vm0:host0")
                (fresh 3)) as (Hstore & _).
    apply Hstore; reflexivity.
  - destruct (failures_surfaced (publicIpDown "3") (paramsOf (publicIpDown "3") "vm0:host0")
                (fresh 3)) as (_ & _ & _ & _ & Hip).
    by destruct (Hip (unavailable "public ip") eq_refl).
Defined.

(** ** Where the code departs from the written claims *)

(** C1 does not hold as written: two nodes with distinct identifiers register
    for a cluster of two and both appends go through, the second one making
    the count two; the key vault is down during the second invocation, which
    gets an error script. No invocation takes the assembly branch. *)
Lemma barrier_without_assembler :
  NoDup (nameOfCall <$> twoNodes) ∧
  InitialSize (blob (fresh 2)) = 2 ∧
  HostsNum (Cluster (paramsOf (healthy "2") "vm0:host0")) = 2 ∧
  HostsNum (Cluster (paramsOf (keyVaultDown "2") "vm1:host1")) = 2 ∧
  Instances (blob (registerAll twoNodes (fresh 2)).1) =
    ["vm0:host0:20.1.2.3"; "vm1:host1:20.1.2.3"] ∧
  (registerAll twoNodes (fresh 2)).2 =
    [Done (Wait "This (vm0) is instance 1/2 that is ready for clusterization"
             (reportFunctionOf (paramsOf (healthy "2") "vm0:host0") "s3cr3t"));
     Done (ErrorScript (unavailable "key vault"))] ∧
  filter (λ r, Is_true (assembles r)) (registerAll twoNodes (fresh 2)).2 = [].
Proof.
  split_and!; try (vm_compute; reflexivity).
  apply (bool_decide_unpack _). vm_compute. exact I.
Qed.

(** C2 does not hold as written: the append goes through and one identifier
    of three is registered, but the function key cannot be read and the
    node is returned the error script, not the progress report. *)
Lemma appended_without_progress_report :
  AddInstanceToState (keyVaultDown "3") EmptyString EmptyString EmptyString EmptyString
    (registeredName (keyVaultDown "3") (paramsOf (keyVaultDown "3") "vm0:host0"))
    (fresh 3) =
    ({| blob := {| Instances := ["vm0:host0:20.1.2.3"]; InitialSize := 3 |};
        storeCalls := ["vm0:host0:20.1.2.3"] |},
     Ok {| Instances := ["vm0:host0:20.1.2.3"]; InitialSize := 3 |}) ∧
  HostsNum (Cluster (paramsOf (keyVaultDown "3") "vm0:host0")) = 3 ∧
  ClusterizeInstruction (keyVaultDown "3") (paramsOf (keyVaultDown "3") "vm0:host0")
    (fresh 3) =
    ({| blob := {| Instances := ["vm0:host0:20.1.2.3"]; InitialSize := 3 |};
        storeCalls := ["vm0:host0:20.1.2.3"] |},
     Done (ErrorScript (unavailable "key vault"))) ∧
  Clusterize (keyVaultDown "3") (paramsOf (keyVaultDown "3") "vm0:host0") (fresh 3) =
    ({| blob := {| Instances := ["vm0:host0:20.1.2.3"]; InitialSize := 3 |};
        storeCalls := ["vm0:host0:20.1.2.3"] |},
     Done (GetErrorScript (unavailable "key vault"))).
Proof. split_and!; vm_compute; reflexivity. Qed.

(** C4 does not hold as written: a request whose body cannot be decoded is
    logged and the handler returns without writing a response. *)
Lemma undecodable_request_unanswered :
  Handler (healthy "3") Undecodable (fresh 3) = (fresh 3, Done None) ∧
  Handler (healthy "3") (InvokeRequest (ReqObject (BodyString None))) (fresh 3) =
    (fresh 3, Done None).
Proof. split; reflexivity. Qed.

(** C5 does not hold as written: the public address lookup fails during the
    registration and the node is returned the progress report all the same,
    registered under the name it sent. *)
Lemma public_address_failure_swallowed :
  GetPublicIp (publicIpDown "3") EmptyString EmptyString "weka-poc-vmss" "weka" "poc" "vm0" =
    Err (unavailable "public ip") ∧
  ClusterizeInstruction (publicIpDown "3") (paramsOf (publicIpDown "3") "vm0:host0")
    (fresh 3) =
    ({| blob := {| Instances := ["vm0:host0"]; InitialSize := 3 |};
        storeCalls := ["vm0:host0"] |},
     Done (Wait "This (vm0) is instance 1/3 that is ready for clusterization"
             (reportFunctionOf (paramsOf (publicIpDown "3") "vm0:host0") "s3cr3t"))).
Proof. split; vm_compute; reflexivity. Qed.

(** C7 does not hold as written: a plan is built for a store with one
    registered identifier, whose instance name the private address map does
    not know; its one entry carries the empty string, not a resolved
    address. *)
Lemma plan_entry_without_address :
  privateAddresses (healthy "1") (paramsOf (healthy "1") "vm9:host9") = Ok privateIps ∧
  privateIps !! "vm9" = None ∧
  match assemblyPlan (healthy "1")
          {| Instances := ["vm9:host9:20.1.2.3"]; InitialSize := 1 |}
          (paramsOf (healthy "1") "vm9:host9") with
  | Done (Ok plan) => VMNames plan = ["host9"] ∧ IPs plan = [EmptyString]
  | _ => False
  end.
Proof. split_and!; [reflexivity|vm_compute; reflexivity|vm_compute; split; reflexivity]. Qed.

(** C10 does not hold as written: the one registered identifier has no ":",
    yet [HandleLastClusterVm] does not panic: the cluster password cannot be
    read and the function returns that error before it reaches the loop. *)
Lemma no_colon_without_panic :
  strings_Contains "vm0" colon = false ∧
  HandleLastClusterVm (passwordDown "1") {| Instances := ["vm0"]; InitialSize := 1 |}
    (paramsOf (passwordDown "1") "vm0") (NewFuncDef "url" "key") =
    Done (EmptyString,
          Some (Errorf "failed to get weka cluster password: " (unavailable "key vault"))).
Proof. split; vm_compute; reflexivity. Qed.

(** * Further properties of the code *)

Section Further.
Context `{lib : Lib}.


Lemma strings_Split_app (a b : string) (sep : Ascii.ascii) :
  strings_Split (a +:+ String sep b) sep = strings_Split a sep ++ strings_Split b sep.
Proof.
  induction a as [|c rest IH].
  - change (strings_Split (String sep b) sep = [EmptyString] ++ strings_Split b sep).
    simpl. by rewrite Ascii.eqb_refl.
  - change (strings_Split (String c (rest +:+ String sep b)) sep =
            strings_Split (String c rest) sep ++ strings_Split b sep).
    simpl. rewrite IH.
    destruct (Ascii.eqb c sep); [done|].
    by destruct (strings_Split_cons rest sep) as (piece & pieces & ->).
Qed.

Lemma addressKey_prefix (s : string) :
  strings_Split s colon !! 0%nat = Some (addressKey s) ∧
  strings_Contains (addressKey s) colon = false ∧
  ∃ tail, s = addressKey s +:+ tail ∧ (tail = EmptyString ∨ ∃ rest, tail = String colon rest).
Proof.
  unfold addressKey. induction s as [|c rest (Hhead & Hclean & tail & Hs & Htail)].
  - split_and!; [done..|]. exists EmptyString. split; [done|by left].
  - simpl. destruct (Ascii.eqb_spec c colon) as [->|Hne].
    + split_and!; [done..|]. exists (String colon rest). split; [done|]. right. by exists rest.
    + destruct (strings_Split_cons rest colon) as (piece & pieces & Hsplit).
      rewrite Hsplit in *. simpl in *. split_and!; [done| |].
      * rewrite Hclean. by destruct (Ascii.eqb_spec c colon).
      * exists tail. split; [|done]. by rewrite Hs at 1.
Qed.

(** X1. The instance name [Clusterize] computes on line 178 always exists
    (the index into the split cannot be out of range), has no ":" in it, and
    is the part of the name the node sent up to its first ":": the name
    sent is the instance name alone, or the instance name, a ":" and the
    rest. *)
Theorem instanceName_is_prefix (p : ClusterizationParams) :
  strings_Split (VmName p) colon !! 0%nat = Some (instanceNameOf p) ∧
  strings_Contains (instanceNameOf p) colon = false ∧
  ∃ tail, VmName p = instanceNameOf p +:+ tail ∧
          (tail = EmptyString ∨ ∃ rest, tail = ":" +:+ rest).
Proof. apply (addressKey_prefix (VmName p)). Qed.

Lemma registeredName_cases cloud p :
  registeredName cloud p = VmName p ∨
  ∃ ip, GetPublicIp cloud (SubscriptionId p) (ResourceGroupName p)
          (GetVmScaleSetName (Prefix p) (ClusterName (Cluster p))) (Prefix p)
          (ClusterName (Cluster p)) (GetScaleSetVmIndex (instanceNameOf p)) = Ok ip ∧
        registeredName cloud p = VmName p +:+ String colon ip.
Proof.
  destruct (GetPublicIp cloud (SubscriptionId p) (ResourceGroupName p)
              (GetVmScaleSetName (Prefix p) (ClusterName (Cluster p))) (Prefix p)
              (ClusterName (Cluster p)) (GetScaleSetVmIndex (instanceNameOf p)))
    as [ip|err] eqn:Hip.
  - right. exists ip. split; [done|].
    by destruct (registeredName_with_address cloud p ip Hip) as [-> _].
  - left. unfold registeredName. fold (instanceNameOf p). by rewrite Hip.
Qed.

Lemma strings_Split_two (s : string) :
  strings_Contains s colon = true →
  ∃ first second pieces, strings_Split s colon = first :: second :: pieces.
Proof.
  intros Hcolon.
  destruct (strings_Split_cons s colon) as (first & pieces & Hsplit).
  destruct pieces as [|second pieces]; [|by eauto].
  assert (strings_Split s colon !! 1%nat = None) as Hnone by (by rewrite Hsplit).
  apply strings_Split_second in Hnone. congruence.
Qed.

Lemma strings_Split_one (s : string) :
  strings_Contains s colon = false → strings_Split s colon = [s].
Proof.
  induction s as [|c rest IH]; [done|]. simpl.
  destruct (Ascii.eqb c colon); [done|]. simpl. intros Hrest. by rewrite IH.
Qed.

(** X2. When the name the node sent has a ":", the identifier registered
    for it gives the assembly the same two pieces whether or not a public
    address was appended: the key of the private address lookup is the
    instance name and the node name is the second piece of the name sent.
    The public address never reaches the plan. *)
Theorem public_address_unused_by_plan cloud (p : ClusterizationParams)
    (Hcolon : strings_Contains (VmName p) colon = true) :
  addressKey (registeredName cloud p) = instanceNameOf p ∧
  nodeName (registeredName cloud p) = nodeName (VmName p).
Proof.
  destruct (registeredName_cases cloud p) as [->|(ip & _ & ->)]; [done|].
  unfold addressKey, nodeName, instanceNameOf. rewrite strings_Split_app.
  by destruct (strings_Split_two _ Hcolon) as (first & second & pieces & ->).
Qed.

(** X3. When the name the node sent has no ":" and the public address
    lookup succeeds, the identifier registered is the name, a ":" and the
    address, and the assembly takes the address (up to its first ":", all
    of it when it has none) as the node name. *)
Theorem bare_name_takes_address_as_node_name cloud (p : ClusterizationParams) ip
    (Hbare : strings_Contains (VmName p) colon = false)
    (Hip : GetPublicIp cloud (SubscriptionId p) (ResourceGroupName p)
             (GetVmScaleSetName (Prefix p) (ClusterName (Cluster p))) (Prefix p)
             (ClusterName (Cluster p)) (GetScaleSetVmIndex (VmName p)) = Ok ip) :
  registeredName cloud p = VmName p +:+ ":" +:+ ip ∧
  addressKey (registeredName cloud p) = VmName p ∧
  nodeName (registeredName cloud p) = addressKey ip ∧
  (strings_Contains ip colon = false → nodeName (registeredName cloud p) = ip).
Proof.
  assert (instanceNameOf p = VmName p) as Hname.
  { unfold instanceNameOf. by rewrite strings_Split_one. }
  rewrite <- Hname in Hip.
  destruct (registeredName_with_address cloud p ip Hip) as [Hreg _].
  rewrite Hreg. split; [done|].
  change (VmName p +:+ ":" +:+ ip) with (VmName p +:+ String colon ip).
  unfold addressKey, nodeName. rewrite strings_Split_app, strings_Split_one by done.
  simpl. split_and!; [done..|].
  intros Hplain. by rewrite strings_Split_one.
Qed.


(** X4. On an error of the store call, [Clusterize] returns the shutdown
    instruction exactly when the error value itself is a
    [*common.ShutdownRequired]; an error built by [fmt.Errorf], also one
    that wraps the overflow signal, gives the error script carrying the
    wrapped message. *)
Theorem shutdown_only_for_unwrapped_signal cloud p w w' err
    (Hadd : AddInstanceToState cloud (SubscriptionId p) (ResourceGroupName p)
              (StateStorageName p) (StateContainerName p) (registeredName cloud p) w
            = (w', Err err)) :
  (ClusterizeInstruction cloud p w = (w', Done ShutDown) ↔ ∃ m, err = ShutdownRequired m) ∧
  (∀ prefix inner, err = Errorf prefix inner →
     ClusterizeInstruction cloud p w = (w', Done (ErrorScript err)) ∧
     Clusterize cloud p w = (w', Done (GetErrorScript err)) ∧
     Error err = prefix +:+ Error inner).
Proof.
  pose proof (ClusterizeInstruction_store_error _ _ _ _ _ Hadd) as Hrun.
  split.
  - rewrite Hrun. destruct err as [m|s|msg inner]; simpl.
    + split; [by eauto|done].
    + split; [done|]. by intros [m ?].
    + split; [done|]. by intros [m ?].
  - intros prefix inner Herr.
    assert (isShutdownRequired err = false) as Hother by (by rewrite Herr).
    rewrite Hother in Hrun. split_and!; [exact Hrun| |by rewrite Herr].
    apply (Clusterize_render _ _ _ _ (ErrorScript err)). exact Hrun.
Qed.

(** X5. When the state returned by the store holds more identifiers than
    [HostsNum], the node is returned the progress report, with both numbers
    in its message, and the assembly is not run: line 213 tests equality
    only. *)
Theorem surplus_registrations_wait cloud p w w' state key
    (Hadd : AddInstanceToState cloud (SubscriptionId p) (ResourceGroupName p)
              (StateStorageName p) (StateContainerName p) (registeredName cloud p) w
            = (w', Ok state))
    (Hkey : GetKeyVaultValue cloud (KeyVaultUri p) "function-app-default-key" = Ok key)
    (Hsurplus : HostsNum (Cluster p) < Z.of_nat (length (Instances state))) :
  ClusterizeInstruction cloud p w =
    (w', Done (Wait ("This (" +:+ instanceNameOf p +:+ ") is instance " +:+
                     pretty (Z.of_nat (length (Instances state))) +:+ "/" +:+
                     pretty (HostsNum (Cluster p)) +:+ " that is ready for clusterization")
                (reportFunctionOf p key))) ∧
  assembles (ClusterizeInstruction cloud p w).2 = false.
Proof.
  rewrite (ClusterizeInstruction_appended _ _ _ _ _ _ Hadd Hkey).
  destruct (Z.eqb_spec (Z.of_nat (length (Instances state))) (HostsNum (Cluster p)));
    [lia|].
  by rewrite waitMessage_text.
Qed.

Lemma HandleLastClusterVm_Panic_inv cloud state p funcDef m :
  HandleLastClusterVm cloud state p funcDef = Panic m ↔
  (∃ p' password addresses, assemblySteps cloud p = Ok (p', password, addresses)) ∧
  (∃ instance, instance ∈ Instances state ∧ strings_Contains instance colon = false) ∧
  m = "index out of range [1] with length 1".
Proof.
  split.
  - intros Hpanic.
    destruct (assemblySteps cloud p) as [[[p' password] addresses]|err] eqn:Hsteps.
    + destruct (all_or_one (Instances state)) as [Hcolon|Hbad].
      * unfold HandleLastClusterVm in Hpanic.
        by rewrite (assemblyPlan_colon _ _ _ _ _ _ Hsteps Hcolon) in Hpanic.
      * unfold HandleLastClusterVm in Hpanic.
        rewrite (assemblyPlan_no_colon _ _ _ _ _ _ Hsteps Hbad) in Hpanic.
        injection Hpanic as <-. split_and!; [by eauto|done|done].
    + by rewrite (HandleLastClusterVm_steps_error _ _ _ _ _ Hsteps) in Hpanic.
  - intros ((p' & password & addresses & Hsteps) & Hbad & ->).
    unfold HandleLastClusterVm.
    by rewrite (assemblyPlan_no_colon _ _ _ _ _ _ Hsteps Hbad).
Qed.

(** X6. [Clusterize] panics in one situation only: the append went
    through, the function key was read, the count equals [HostsNum], every
    sub-step of the assembly succeeded and some registered identifier has
    no ":"; the panic is then the index out of range of the loop. *)
Theorem Clusterize_panics_only_in_the_loop cloud p w w' m :
  Clusterize cloud p w = (w', Panic m) ↔
  ∃ state key,
    AddInstanceToState cloud (SubscriptionId p) (ResourceGroupName p)
      (StateStorageName p) (StateContainerName p) (registeredName cloud p) w
      = (w', Ok state) ∧
    GetKeyVaultValue cloud (KeyVaultUri p) "function-app-default-key" = Ok key ∧
    Z.of_nat (length (Instances state)) = HostsNum (Cluster p) ∧
    (∃ p' password addresses, assemblySteps cloud p = Ok (p', password, addresses)) ∧
    (∃ instance, instance ∈ Instances state ∧ strings_Contains instance colon = false) ∧
    m = "index out of range [1] with length 1".
Proof.
  assert (Hmap : Clusterize cloud p w = (w', Panic m) ↔
                 ClusterizeInstruction cloud p w = (w', Panic m)).
  { unfold Clusterize.
    destruct (ClusterizeInstruction cloud p w) as [w1 [i|m1]]; simpl;
      split; intros [= <- ?]; by subst. }
  rewrite Hmap. clear Hmap.
  destruct (AddInstanceToState cloud (SubscriptionId p) (ResourceGroupName p)
              (StateStorageName p) (StateContainerName p) (registeredName cloud p) w)
    as [w1 [state|err]] eqn:Hadd.
  - destruct (GetKeyVaultValue cloud (KeyVaultUri p) "function-app-default-key")
      as [key|err] eqn:Hkey.
    + rewrite (ClusterizeInstruction_appended _ _ _ _ _ _ Hadd Hkey).
      destruct (Z.eqb_spec (Z.of_nat (length (Instances state))) (HostsNum (Cluster p)))
        as [Hlast|Hnot].
      * split.
        -- intros [= <- Hpanic].
           assert (HandleLastClusterVm cloud state p (funcDefOf p key) = Panic m) as Hp.
           { by destruct (HandleLastClusterVm _ _ _ _) as [[s [e|]]|m1]; simplify_eq. }
           apply HandleLastClusterVm_Panic_inv in Hp as (Hsteps & Hbad & ->).
           exists state, key. by split_and!.
        -- intros (state' & key' & [= <- <-] & _ & _ & Hsteps & Hbad & ->).
           f_equal.
           by rewrite (proj2 (HandleLastClusterVm_Panic_inv cloud state p
                                (funcDefOf p key) _) (conj Hsteps (conj Hbad eq_refl))).
      * split; [done|]. intros (state' & key' & [= _ <-] & _ & ? & _). done.
    + rewrite (ClusterizeInstruction_key_error _ _ _ _ _ _ Hadd Hkey).
      split; [done|]. intros (? & ? & _ & ? & _). done.
  - rewrite (ClusterizeInstruction_store_error _ _ _ _ _ Hadd).
    split; [by destruct (isShutdownRequired err)|]. intros (? & ? & ? & _). done.
Qed.

Lemma Clusterize_store_world cloud p w :
  (Clusterize cloud p w).1 =
    (AddInstanceToState cloud (SubscriptionId p) (ResourceGroupName p)
       (StateStorageName p) (StateContainerName p) (registeredName cloud p) w).1.
Proof.
  rewrite Clusterize_world.
  destruct (AddInstanceToState cloud (SubscriptionId p) (ResourceGroupName p)
              (StateStorageName p) (StateContainerName p) (registeredName cloud p) w)
    as [w1 [state|err]] eqn:Hadd.
  - destruct (GetKeyVaultValue cloud (KeyVaultUri p) "function-app-default-key")
      as [key|err] eqn:Hkey.
    + by rewrite (ClusterizeInstruction_appended _ _ _ _ _ _ Hadd Hkey).
    + by rewrite (ClusterizeInstruction_key_error _ _ _ _ _ _ Hadd Hkey).
  - by rewrite (ClusterizeInstruction_store_error _ _ _ _ _ Hadd).
Qed.

(** X7. Nothing after the append is undone: whatever the invocation
    returns afterwards, the world it leaves is the one the store call left.
    In particular the node stays registered when it is returned the error
    script for the function key, the reported error of the assembly, or
    when the assembly panics. *)
Theorem registration_is_not_rolled_back cloud p w w' state
    (Hadd : AddInstanceToState cloud (SubscriptionId p) (ResourceGroupName p)
              (StateStorageName p) (StateContainerName p) (registeredName cloud p) w
            = (w', Ok state)) :
  (Clusterize cloud p w).1 = w' ∧
  (∀ err, GetKeyVaultValue cloud (KeyVaultUri p) "function-app-default-key" = Err err →
     Clusterize cloud p w = (w', Done (GetErrorScript err))) ∧
  (∀ key script err,
     GetKeyVaultValue cloud (KeyVaultUri p) "function-app-default-key" = Ok key →
     Z.of_nat (length (Instances state)) = HostsNum (Cluster p) →
     HandleLastClusterVm cloud state p (funcDefOf p key) = Done (script, Some err) →
     Clusterize cloud p w =
       (w', Done (cloudCommon_GetErrorScript err (reportFunctionOf p key)))) ∧
  (∀ key m,
     GetKeyVaultValue cloud (KeyVaultUri p) "function-app-default-key" = Ok key →
     Z.of_nat (length (Instances state)) = HostsNum (Cluster p) →
     HandleLastClusterVm cloud state p (funcDefOf p key) = Panic m →
     Clusterize cloud p w = (w', Panic m)).
Proof.
  split_and!.
  - by rewrite Clusterize_store_world, Hadd.
  - intros err Hkey. apply (Clusterize_render _ _ _ _ (ErrorScript err)).
    by apply (ClusterizeInstruction_key_error _ _ _ _ state).
  - intros key script err Hkey Hlast Hhandle.
    apply (Clusterize_render _ _ _ _ (ReportedError err _)).
    rewrite (ClusterizeInstruction_appended _ _ _ _ _ _ Hadd Hkey).
    by rewrite (proj2 (Z.eqb_eq _ _) Hlast), Hhandle.
  - intros key m Hkey Hlast Hhandle. unfold Clusterize.
    rewrite (ClusterizeInstruction_appended _ _ _ _ _ _ Hadd Hkey).
    by rewrite (proj2 (Z.eqb_eq _ _) Hlast), Hhandle.
Qed.

Lemma assemblySteps_Err_inv cloud p err :
  assemblySteps cloud p = Err err →
  ∃ s inner, subStepFails cloud p s inner ∧ err = Errorf (stepPrefix s) inner.
Proof.
  unfold assemblySteps. cbv zeta.
  destruct (SetObs (Cluster p)) eqn:Hset.
  - destruct (String.eqb_spec (AccessKey (Obs p)) EmptyString) as [Hempty|Hkey].
    + destruct (CreateStorageAccount cloud (SubscriptionId p) (ResourceGroupName p)
                  (Name (Obs p)) (Location p)) as [key|e] eqn:Haccount; simpl.
      2:{ intros [= <-]. exists StorageAccountCreation, e. by split_and!. }
      destruct (CreateContainer cloud (Name (Obs p)) (ContainerName (Obs p)))
        as [e|] eqn:Hcontainer; simpl.
      { intros [= <-]. exists ContainerCreation, e. split; [|done].
        split_and!; [done|done|by exists key|done]. }
      destruct (AssignStorageBlobDataContributorRoleToScaleSet cloud (SubscriptionId p)
                  (ResourceGroupName p)
                  (GetVmScaleSetName (Prefix p) (ClusterName (Cluster p)))
                  (Name (Obs p)) (ContainerName (Obs p))) as [e|] eqn:Hrole; simpl.
      { intros [= <-]. exists RoleAssignment, e. split; [|done].
        split_and!; [done| |done]. intros _. split; [by exists key|done]. }
      assert (obsProvisioned cloud p) as Hobs.
      { intros _. split; [|done]. intros _. split; [by exists key|done]. }
      destruct (GetWekaClusterPassword cloud (KeyVaultUri p)) as [password|e] eqn:Hpw;
        simpl.
      2:{ intros [= <-]. exists SecretResolution, e. by split_and!. }
      destruct (GetVmsPrivateIps cloud (SubscriptionId p) (ResourceGroupName p)
                  (GetVmScaleSetName (Prefix p) (ClusterName (Cluster p))))
        as [addresses|e] eqn:Hips; simpl; [done|].
      intros [= <-]. exists PrivateAddressResolution, e. split; [|done].
      split_and!; [done|by exists password|done].
    + simpl.
      destruct (AssignStorageBlobDataContributorRoleToScaleSet cloud (SubscriptionId p)
                  (ResourceGroupName p)
                  (GetVmScaleSetName (Prefix p) (ClusterName (Cluster p)))
                  (Name (Obs p)) (ContainerName (Obs p))) as [e|] eqn:Hrole; simpl.
      { intros [= <-]. exists RoleAssignment, e. split; [|done].
        split_and!; [done| |done]. intros Hempty. done. }
      assert (obsProvisioned cloud p) as Hobs.
      { intros _. split; [|done]. intros Hempty. done. }
      destruct (GetWekaClusterPassword cloud (KeyVaultUri p)) as [password|e] eqn:Hpw;
        simpl.
      2:{ intros [= <-]. exists SecretResolution, e. by split_and!. }
      destruct (GetVmsPrivateIps cloud (SubscriptionId p) (ResourceGroupName p)
                  (GetVmScaleSetName (Prefix p) (ClusterName (Cluster p))))
        as [addresses|e] eqn:Hips; simpl; [done|].
      intros [= <-]. exists PrivateAddressResolution, e. split; [|done].
      split_and!; [done|by exists password|done].
  - simpl.
    assert (obsProvisioned cloud p) as Hobs.
    { intros Htrue. congruence. }
    destruct (GetWekaClusterPassword cloud (KeyVaultUri p)) as [password|e] eqn:Hpw;
      simpl.
    2:{ intros [= <-]. exists SecretResolution, e. by split_and!. }
    destruct (GetVmsPrivateIps cloud (SubscriptionId p) (ResourceGroupName p)
                (GetVmScaleSetName (Prefix p) (ClusterName (Cluster p))))
      as [addresses|e] eqn:Hips; simpl; [done|].
    intros [= <-]. exists PrivateAddressResolution, e. split; [|done].
    split_and!; [done|by exists password|done].
Qed.

(** X8. Whenever [HandleLastClusterVm] returns an error, the script
    returned with it is empty and the error is the [fmt.Errorf] wrapping of
    the error of one sub-step that was reached and failed, under that
    sub-step's own prefix. *)
Theorem every_error_names_its_step cloud state p funcDef script err
    (Herr : HandleLastClusterVm cloud state p funcDef = Done (script, Some err)) :
  script = EmptyString ∧
  ∃ s inner, subStepFails cloud p s inner ∧
             err = wrapError (stepPrefix s +:+ Error inner) inner.
Proof.
  destruct (assemblySteps cloud p) as [[[p' password] addresses]|err'] eqn:Hsteps.
  - unfold HandleLastClusterVm, assemblyPlan in Herr. rewrite Hsteps in Herr.
    by destruct (nodeLists _ _ _ _).
  - rewrite (HandleLastClusterVm_steps_error _ _ _ _ _ Hsteps) in Herr.
    injection Herr as <- <-. split; [done|].
    by apply assemblySteps_Err_inv.
Qed.


Lemma assemblySteps_Ok_inv cloud p p' password addresses :
  assemblySteps cloud p = Ok (p', password, addresses) →
  GetWekaClusterPassword cloud (KeyVaultUri p) = Ok password ∧
  privateAddresses cloud p = Ok addresses ∧
  ((SetObs (Cluster p) = true ∧ AccessKey (Obs p) = EmptyString ∧
    ∃ key, storageAccount cloud p = Ok key ∧ p' = withAccessKey p key) ∨
   ((SetObs (Cluster p) = false ∨ AccessKey (Obs p) ≠ EmptyString) ∧ p' = p)).
Proof.
  intros Hsteps.
  pose proof (assemblySteps_addresses _ _ _ _ _ Hsteps) as Hips.
  revert Hsteps. unfold assemblySteps, storageAccount. cbv zeta.
  destruct (SetObs (Cluster p)) eqn:Hset.
  - destruct (String.eqb_spec (AccessKey (Obs p)) EmptyString) as [Hempty|Hkey].
    + destruct (CreateStorageAccount cloud (SubscriptionId p) (ResourceGroupName p)
                  (Name (Obs p)) (Location p)) as [key|e] eqn:Haccount; simpl; [|done].
      destruct (CreateContainer _ _ _); simpl; [done|].
      destruct (AssignStorageBlobDataContributorRoleToScaleSet _ _ _ _ _ _); simpl; [done|].
      destruct (GetWekaClusterPassword cloud (KeyVaultUri p)) as [pw|e]; simpl; [|done].
      destruct (GetVmsPrivateIps _ _ _ _); simpl; [|done].
      intros [= <- <- _]. split_and!; [done..|]. left. split_and!; [done..|]. by exists key.
    + simpl.
      destruct (AssignStorageBlobDataContributorRoleToScaleSet _ _ _ _ _ _); simpl; [done|].
      destruct (GetWekaClusterPassword cloud (KeyVaultUri p)) as [pw|e]; simpl; [|done].
      destruct (GetVmsPrivateIps _ _ _ _); simpl; [|done].
      intros [= <- <- _]. split_and!; [done..|]. right. split; [by right|done].
  - simpl.
    destruct (GetWekaClusterPassword cloud (KeyVaultUri p)) as [pw|e]; simpl; [|done].
    destruct (GetVmsPrivateIps _ _ _ _); simpl; [|done].
    intros [= <- <- _]. split_and!; [done..|]. right. split; [by left|done].
Qed.

Lemma assemblyPlan_Ok_inv cloud state p plan :
  assemblyPlan cloud state p = Done (Ok plan) →
  ∃ p' password addresses names ips,
    assemblySteps cloud p = Ok (p', password, addresses) ∧
    plan = clusterParamsOf p' password names ips.
Proof.
  unfold assemblyPlan.
  destruct (assemblySteps cloud p) as [[[p' password] addresses]|err]; [|done].
  destruct (nodeLists _ _ _ _) as [[names ips]|m]; simpl; [|done].
  intros [= <-]. by exists p', password, addresses, names, ips.
Qed.

(** X9. With an access key already configured, [HandleLastClusterVm]
    creates neither a storage account nor a container: two runs in which
    the role assignment, the cluster password and the private addresses
    answer alike give the same result, whatever the two creation services
    would answer. *)
Theorem configured_key_skips_creation cloud cloud' state p funcDef
    (Hkey : AccessKey (Obs p) ≠ EmptyString)
    (Hrole : roleAssignment cloud p = roleAssignment cloud' p)
    (Hpassword : GetWekaClusterPassword cloud (KeyVaultUri p) =
                 GetWekaClusterPassword cloud' (KeyVaultUri p))
    (Haddresses : privateAddresses cloud p = privateAddresses cloud' p) :
  HandleLastClusterVm cloud state p funcDef = HandleLastClusterVm cloud' state p funcDef.
Proof.
  unfold HandleLastClusterVm, assemblyPlan.
  assert (assemblySteps cloud p = assemblySteps cloud' p) as ->; [|done].
  unfold assemblySteps, roleAssignment, privateAddresses in *. cbv zeta.
  destruct (SetObs (Cluster p)).
  - destruct (String.eqb_spec (AccessKey (Obs p)) EmptyString) as [|_]; [done|].
    simpl. rewrite Hrole.
    destruct (AssignStorageBlobDataContributorRoleToScaleSet cloud' _ _ _ _ _); simpl;
      [done|].
    rewrite Hpassword. destruct (GetWekaClusterPassword cloud' _); simpl; [|done].
    by rewrite Haddresses.
  - simpl. rewrite Hpassword. destruct (GetWekaClusterPassword cloud' _); simpl; [|done].
    by rewrite Haddresses.
Qed.

(** X10. With [SetObs] off, none of the three object-store services is
    consulted: two runs in which the cluster password and the private
    addresses answer alike give the same result; the plan still carries the
    tiering script, built from the object-store parameters of the
    request. *)
Theorem without_tiering_no_storage_call cloud cloud' state p funcDef
    (Hoff : SetObs (Cluster p) = false)
    (Hpassword : GetWekaClusterPassword cloud (KeyVaultUri p) =
                 GetWekaClusterPassword cloud' (KeyVaultUri p))
    (Haddresses : privateAddresses cloud p = privateAddresses cloud' p) :
  HandleLastClusterVm cloud state p funcDef = HandleLastClusterVm cloud' state p funcDef ∧
  (∀ plan, assemblyPlan cloud state p = Done (Ok plan) →
     ObsScript plan = GetObsScript (Obs p)).
Proof.
  assert (assemblySteps cloud p = assemblySteps cloud' p) as Hsame.
  { unfold assemblySteps, privateAddresses in *. cbv zeta.
    rewrite Hoff. simpl. rewrite Hpassword.
    destruct (GetWekaClusterPassword cloud' _); simpl; [|done]. by rewrite Haddresses. }
  split.
  - unfold HandleLastClusterVm, assemblyPlan. by rewrite Hsame.
  - intros plan (p' & password & addresses & names & ips & Hsteps & ->)%assemblyPlan_Ok_inv.
    apply assemblySteps_Ok_inv in Hsteps as (_ & _ & [(Hon & _)|[_ ->]]); [congruence|done].
Qed.

(** X11. A plan that is built keeps the cluster parameters of the request
    (size, name, drives, flags, proxy and home URLs, data protection
    layout), takes [InstallDpdk] from the request, sets the user name to
    "admin", the password to the one read from the key vault, and the debug
    override and find-drives scripts to the fixed ones. *)
Theorem plan_keeps_request_configuration cloud state p plan
    (Hplan : assemblyPlan cloud state p = Done (Ok plan)) :
  HostsNum plan = HostsNum (Cluster p) ∧
  ClusterName plan = ClusterName (Cluster p) ∧
  NvmesNum plan = NvmesNum (Cluster p) ∧
  SetObs plan = SetObs (Cluster p) ∧
  SmbwEnabled plan = SmbwEnabled (Cluster p) ∧
  AddFrontend plan = AddFrontend (Cluster p) ∧
  ProxyUrl plan = ProxyUrl (Cluster p) ∧
  WekaHomeUrl plan = WekaHomeUrl (Cluster p) ∧
  DataProtection plan = DataProtection (Cluster p) ∧
  ClusterInstallDpdk plan = InstallDpdk p ∧
  WekaUsername plan = "admin" ∧
  GetWekaClusterPassword cloud (KeyVaultUri p) = Ok (WekaPassword plan) ∧
  DebugOverrideCmds plan = GetWekaDebugOverrideCmds ∧
  FindDrivesScript plan = common_FindDrivesScript.
Proof.
  apply assemblyPlan_Ok_inv in Hplan
    as (p' & password & addresses & names & ips & Hsteps & ->).
  apply assemblySteps_Ok_inv in Hsteps
    as (Hpassword & _ & [(_ & _ & key & _ & ->)|[_ ->]]); by split_and!.
Qed.

(** X12. When tiering is on and no access key is configured, the tiering
    script of the plan is built with the key the storage account creation
    returned. *)
Theorem created_key_reaches_obs_script cloud state p plan
    (Hplan : assemblyPlan cloud state p = Done (Ok plan))
    (Hon : SetObs (Cluster p) = true)
    (Hempty : AccessKey (Obs p) = EmptyString) :
  ∃ key,
    CreateStorageAccount cloud (SubscriptionId p) (ResourceGroupName p) (Name (Obs p))
      (Location p) = Ok key ∧
    ObsScript plan =
      GetObsScript {| Name := Name (Obs p);
                      ContainerName := ContainerName (Obs p);
                      AccessKey := key;
                      TieringSsdPercent := TieringSsdPercent (Obs p) |}.
Proof.
  apply assemblyPlan_Ok_inv in Hplan
    as (p' & password & addresses & names & ips & Hsteps & ->).
  apply assemblySteps_Ok_inv in Hsteps
    as (_ & _ & [(_ & _ & key & Hkey & ->)|[[Hoff|Hkey] _]]); [|congruence|done].
  by exists key.
Qed.



(** X14. What [Handler] can return. A response is written only for a
    request that decodes, has content type application/json, and its body
    is the fixed message when [vm] is empty and the script [Clusterize]
    returned otherwise. A panic is either the failed string assertion on
    the body field or the panic of [Clusterize]. Nothing is written exactly
    for the three undecodable shapes of request. *)
Theorem Handler_outcomes cloud r w :
  (∀ written, (Handler cloud r w).2 = Done (Some written) →
     ContentType written = "application/json" ∧
     ∃ data body,
       r = InvokeRequest (ReqObject (BodyString (Some data))) ∧
       written = respond body ∧
       responseBody written = Some body ∧
       ((Vm data = EmptyString ∧ body = "Cluster name wasn't supplied") ∨
        (Vm data ≠ EmptyString ∧
         (Clusterize cloud (paramsOf cloud (Vm data)) w).2 = Done body))) ∧
  (∀ m, (Handler cloud r w).2 = Panic m →
     r = InvokeRequest (ReqObject BodyNotAString) ∨
     ∃ data,
       r = InvokeRequest (ReqObject (BodyString (Some data))) ∧
       Vm data ≠ EmptyString ∧
       (Clusterize cloud (paramsOf cloud (Vm data)) w).2 = Panic m) ∧
  ((Handler cloud r w).2 = Done None ↔
     r = Undecodable ∨ r = InvokeRequest ReqUndecodable ∨
     r = InvokeRequest (ReqObject (BodyString None))).
Proof.
  destruct r as [|[|[|[data|]]]].
  - simpl. split_and!; [done|done|]. split; [by left|done].
  - simpl. split_and!; [done|done|]. split; [by right; left|done].
  - simpl. split_and!; [done|by left|]. split; [done|]. by intros [|[|]].
  - unfold Handler.
    destruct (String.eqb_spec (Vm data) EmptyString) as [Hempty|Hvm].
    + cbn [snd ebind]. split_and!.
      * intros written [= <-]. split; [done|].
        exists data, "Cluster name wasn't supplied".
        split_and!; [done|done|apply responseBody_respond|by left].
      * done.
      * split; [done|]. by intros [|[|]].
    + destruct (Clusterize cloud (paramsOf cloud (Vm data)) w) as [w1 [body|m1]] eqn:Hrun;
        cbn [snd ebind].
      * split_and!.
        -- intros written [= <-]. split; [done|]. exists data, body.
           split_and!; [done|done|apply responseBody_respond|].
           right. split; [exact Hvm|by rewrite Hrun].
        -- done.
        -- split; [done|]. by intros [|[|]].
      * split_and!.
        -- done.
        -- intros m [= <-]. right. exists data.
           split_and!; [done|done|by rewrite Hrun].
        -- split; [done|]. by intros [|[|]].
  - simpl. split_and!; [done|done|]. split; [by right; right|done].
Qed.

(** X15. When HOSTS_NUM gives no positive number (in particular when it
    is unset or unparsable and the ignored error of [strconv.Atoi] leaves
    0), a node whose append returns a non-empty state is returned the
    progress report: the assembly is never run. *)
Theorem no_positive_size_never_assembles cloud vm w w' state key
    (Hsize : (strconv_Atoi (Getenv cloud "HOSTS_NUM")).1 ≤ 0)
    (Hadd : AddInstanceToState cloud (Getenv cloud "SUBSCRIPTION_ID")
              (Getenv cloud "RESOURCE_GROUP_NAME") (Getenv cloud "STATE_STORAGE_NAME")
              (Getenv cloud "STATE_CONTAINER_NAME")
              (registeredName cloud (paramsOf cloud vm)) w = (w', Ok state))
    (Hsome : Instances state ≠ [])
    (Hkey : GetKeyVaultValue cloud (Getenv cloud "KEY_VAULT_URI")
              "function-app-default-key" = Ok key) :
  ∃ msg,
    ClusterizeInstruction cloud (paramsOf cloud vm) w =
      (w', Done (Wait msg (reportFunctionOf (paramsOf cloud vm) key))) ∧
    assembles (ClusterizeInstruction cloud (paramsOf cloud vm) w).2 = false.
Proof.
  rewrite (ClusterizeInstruction_appended cloud (paramsOf cloud vm) w w' state key Hadd Hkey).
  change (HostsNum (Cluster (paramsOf cloud vm)))
    with (strconv_Atoi (Getenv cloud "HOSTS_NUM")).1.
  destruct (Z.eqb_spec (Z.of_nat (length (Instances state)))
              (strconv_Atoi (Getenv cloud "HOSTS_NUM")).1) as [Heq|_].
  - destruct (Instances state); [done|]. simpl in Heq. lia.
  - by eexists.
Qed.

Lemma string_length_append (s t : string) :
  String.length (s +:+ t) = (String.length s + String.length t)%nat.
Proof.
  induction s as [|c rest IH]; [done|].
  change (S (String.length (rest +:+ t)) = S (String.length rest + String.length t)).
  by rewrite IH.
Qed.

Lemma append_cancel_r (s s' t : string) : s +:+ t = s' +:+ t → s = s'.
Proof.
  revert s'. induction s as [|c rest IH]; intros [|c' rest'] Heq; [done| | |].
  - apply (f_equal String.length) in Heq.
    change (String.length t = S (String.length (rest' +:+ t))) in Heq.
    rewrite string_length_append in Heq. lia.
  - apply (f_equal String.length) in Heq.
    change (S (String.length (rest +:+ t)) = String.length t) in Heq.
    rewrite string_length_append in Heq. lia.
  - change (String c (rest +:+ t) = String c' (rest' +:+ t)) in Heq.
    injection Heq as -> Heq. f_equal. by apply IH.
Qed.

(** X16. The error script depends on the error through its message only,
    and two errors with different messages give different scripts. *)
Theorem GetErrorScript_tells_messages_apart (err err' : error) :
  GetErrorScript err = GetErrorScript err' ↔ Error err = Error err'.
Proof.
  rewrite !GetErrorScript_text. split; [|by intros ->].
  intros Heq.
  apply (String.app_inj (nl +:+ "#!/bin/bash" +:+ nl +:+ "<<'###ERROR'" +:+ nl)) in Heq.
  by apply append_cancel_r in Heq.
Qed.


Lemma AddInstanceToState_same_store cloud cloud' a b c d id w :
  storeFailure cloud = storeFailure cloud' →
  AddInstanceToState cloud a b c d id w = AddInstanceToState cloud' a b c d id w.
Proof. intros Hsame. unfold AddInstanceToState. by rewrite Hsame. Qed.

(** X17. An invocation that does not take the assembly branch consults
    none of the assembly services: with the same answers from the public
    address lookup, the store and the key vault, it returns the same
    instruction and script whatever the storage, role assignment, password
    and private address services would answer. *)
Theorem only_the_last_node_provisions cloud cloud' p w
    (Hip : GetPublicIp cloud = GetPublicIp cloud')
    (Hstore : storeFailure cloud = storeFailure cloud')
    (Hvault : GetKeyVaultValue cloud = GetKeyVaultValue cloud')
    (Hnot : assembles (ClusterizeInstruction cloud p w).2 = false) :
  ClusterizeInstruction cloud p w = ClusterizeInstruction cloud' p w ∧
  Clusterize cloud p w = Clusterize cloud' p w.
Proof.
  assert (ClusterizeInstruction cloud p w = ClusterizeInstruction cloud' p w) as Hsame.
  { assert (registeredName cloud p = registeredName cloud' p) as Hname
      by (unfold registeredName; by rewrite Hip).
    pose proof (AddInstanceToState_same_store cloud cloud' (SubscriptionId p)
                  (ResourceGroupName p) (StateStorageName p) (StateContainerName p)
                  (registeredName cloud p) w Hstore) as Hadd'.
    rewrite Hname in Hadd' at 2.
    destruct (AddInstanceToState cloud (SubscriptionId p) (ResourceGroupName p)
                (StateStorageName p) (StateContainerName p) (registeredName cloud p) w)
      as [w1 [state|err]] eqn:Hadd; symmetry in Hadd'.
    - destruct (GetKeyVaultValue cloud (KeyVaultUri p) "function-app-default-key")
        as [key|err] eqn:Hkey.
      + assert (GetKeyVaultValue cloud' (KeyVaultUri p) "function-app-default-key" = Ok key)
          as Hkey' by (by rewrite <- Hvault).
        rewrite (ClusterizeInstruction_appended _ _ _ _ _ _ Hadd Hkey) in Hnot |- *.
        rewrite (ClusterizeInstruction_appended _ _ _ _ _ _ Hadd' Hkey').
        destruct (Z.of_nat (length (Instances state)) =? HostsNum (Cluster p)); [|done].
        simpl in Hnot. by rewrite assembles_last in Hnot.
      + assert (GetKeyVaultValue cloud' (KeyVaultUri p) "function-app-default-key" = Err err)
          as Hkey' by (by rewrite <- Hvault).
        rewrite (ClusterizeInstruction_key_error _ _ _ _ _ _ Hadd Hkey).
        by rewrite (ClusterizeInstruction_key_error _ _ _ _ _ _ Hadd' Hkey').
    - rewrite (ClusterizeInstruction_store_error _ _ _ _ _ Hadd).
      by rewrite (ClusterizeInstruction_store_error _ _ _ _ _ Hadd'). }
  split; [done|]. unfold Clusterize. by rewrite Hsame.
Qed.

End Further.

(** ** The further properties on the sample deployment *)

Lemma public_address_unused_by_plan_witness :
  addressKey (registeredName (healthy "3") (paramsOf (healthy "3") "vm0:host0")) = "vm0" ∧
  nodeName (registeredName (healthy "3") (paramsOf (healthy "3") "vm0:host0")) = "host0".
Proof.
  exact (public_address_unused_by_plan (healthy "3") (paramsOf (healthy "3") "vm0:host0")
           eq_refl).
Defined.

Lemma bare_name_takes_address_as_node_name_witness :
  registeredName (healthy "1") (paramsOf (healthy "1") "vm0") = "vm0:20.1.2.3" ∧
  nodeName (registeredName (healthy "1") (paramsOf (healthy "1") "vm0")) = "20.1.2.3".
Proof.
  destruct (bare_name_takes_address_as_node_name (healthy "1")
              (paramsOf (healthy "1") "vm0") "20.1.2.3" eq_refl eq_refl)
    as (Hname & _ & _ & Hnode).
  split; [exact Hname|exact (Hnode eq_refl)].
Defined.

Lemma shutdown_only_for_unwrapped_signal_witness :
  Clusterize (overflowWrapped "3") (paramsOf (overflowWrapped "3") "vm0:host0") (fresh 3) =
    ({| blob := {| Instances := []; InitialSize := 3 |};
        storeCalls := ["vm0:host0:20.1.2.3"] |},
     Done (GetErrorScript (Errorf "lease lost: " (ShutdownRequired "cluster is full")))).
Proof.
  destruct (shutdown_only_for_unwrapped_signal (overflowWrapped "3")
              (paramsOf (overflowWrapped "3") "vm0:host0") (fresh 3) _ _ eq_refl)
    as [_ Hwrapped].
  destruct (Hwrapped "lease lost: " (ShutdownRequired "cluster is full") eq_refl)
    as (_ & Hscript & _).
  exact Hscript.
Defined.

Lemma surplus_registrations_wait_witness :
  ClusterizeInstruction (healthy "1") (paramsOf (healthy "1") "vm1:host1")
    (holding ["vm0:host0:20.1.2.3"] 5) =
    ({| blob := {| Instances := ["vm0:host0:20.1.2.3"; "vm1:host1:20.1.2.3"];
                   InitialSize := 5 |};
        storeCalls := ["vm1:host1:20.1.2.3"] |},
     Done (Wait "This (vm1) is instance 2/1 that is ready for clusterization"
             (reportFunctionOf (paramsOf (healthy "1") "vm1:host1") "s3cr3t"))).
Proof.
  destruct (surplus_registrations_wait (healthy "1") (paramsOf (healthy "1") "vm1:host1")
              (holding ["vm0:host0:20.1.2.3"] 5) _ _ "s3cr3t" eq_refl eq_refl)
    as [Hwait _]; [vm_compute; reflexivity|].
  exact Hwait.
Defined.

Lemma registration_is_not_rolled_back_witness :
  Instances (blob (Clusterize (keyVaultDown "3") (paramsOf (keyVaultDown "3") "vm0:host0")
                     (fresh 3)).1) = ["vm0:host0:20.1.2.3"] ∧
  (Clusterize (keyVaultDown "3") (paramsOf (keyVaultDown "3") "vm0:host0") (fresh 3)).2 =
    Done (GetErrorScript (unavailable "key vault")).
Proof.
  destruct (registration_is_not_rolled_back (keyVaultDown "3")
              (paramsOf (keyVaultDown "3") "vm0:host0") (fresh 3) _ _ eq_refl)
    as (Hworld & Hvault & _).
  split.
  - by rewrite Hworld.
  - by rewrite (Hvault (unavailable "key vault") eq_refl).
Defined.

Lemma every_error_names_its_step_witness :
  ∃ s inner,
    subStepFails (passwordDown "1") (paramsOf (passwordDown "1") "vm0:host0") s inner ∧
    Errorf "failed to get weka cluster password: " (unavailable "key vault") =
      wrapError (stepPrefix s +:+ Error inner) inner.
Proof.
  exact (proj2 (every_error_names_its_step (passwordDown "1")
                  {| Instances := ["vm0:host0:20.1.2.3"]; InitialSize := 1 |}
                  (paramsOf (passwordDown "1") "vm0:host0") (NewFuncDef "url" "key")
                  EmptyString _ eq_refl)).
Defined.

Lemma configured_key_skips_creation_witness :
  HandleLastClusterVm (storageDown "3")
    {| Instances := threeRegistered; InitialSize := 3 |} (keyed "vm2:host2")
    (NewFuncDef "url" "key") =
  HandleLastClusterVm (healthy "3")
    {| Instances := threeRegistered; InitialSize := 3 |} (keyed "vm2:host2")
    (NewFuncDef "url" "key").
Proof.
  apply configured_key_skips_creation; [discriminate|reflexivity..].
Defined.

Lemma without_tiering_no_storage_call_witness :
  HandleLastClusterVm (untiered "1")
    {| Instances := ["vm0:host0:20.1.2.3"]; InitialSize := 1 |}
    (paramsOf (untiered "1") "vm0:host0") (NewFuncDef "url" "key") =
  HandleLastClusterVm (healthy "1")
    {| Instances := ["vm0:host0:20.1.2.3"]; InitialSize := 1 |}
    (paramsOf (untiered "1") "vm0:host0") (NewFuncDef "url" "key").
Proof.
  apply (without_tiering_no_storage_call (untiered "1") (healthy "1")); reflexivity.
Defined.

Lemma plan_keeps_request_configuration_witness :
  assemblyPlan (healthy "3") {| Instances := threeRegistered; InitialSize := 3 |}
    (paramsOf (healthy "3") "vm2:host2") = Done (Ok threePlan) ∧
  HostsNum threePlan = 3 ∧ WekaUsername threePlan = "admin" ∧
  GetWekaClusterPassword (healthy "3") "https://weka-poc.vault.azure.net" =
    Ok (WekaPassword threePlan).
Proof.
  assert (Hplan : assemblyPlan (healthy "3")
                    {| Instances := threeRegistered; InitialSize := 3 |}
                    (paramsOf (healthy "3") "vm2:host2") = Done (Ok threePlan))
    by (vm_compute; reflexivity).
  destruct (plan_keeps_request_configuration _ _ _ _ Hplan)
    as (Hhosts & _ & _ & _ & _ & _ & _ & _ & _ & _ & Huser & Hpassword & _).
  split_and!; [exact Hplan|exact Hhosts|exact Huser|exact Hpassword].
Defined.

Lemma created_key_reaches_obs_script_witness :
  ObsScript threePlan =
    GetObsScript {| Name := "wekaobs"; ContainerName := "tiering"; AccessKey := "blobkey";
                    TieringSsdPercent := EmptyString |}.
Proof.
  assert (Hplan : assemblyPlan (healthy "3")
                    {| Instances := threeRegistered; InitialSize := 3 |}
                    (paramsOf (healthy "3") "vm2:host2") = Done (Ok threePlan))
    by (vm_compute; reflexivity).
  destruct (created_key_reaches_obs_script _ _ _ _ Hplan eq_refl eq_refl)
    as (key & Hkey & Hscript).
  injection Hkey as <-. exact Hscript.
Defined.

Lemma no_positive_size_never_assembles_witness :
  assembles (ClusterizeInstruction (healthy EmptyString)
               (paramsOf (healthy EmptyString) "vm0:host0") (fresh 1)).2 = false.
Proof.
  assert (Hsize : (strconv_Atoi (Getenv (healthy EmptyString) "HOSTS_NUM")).1 ≤ 0)
    by (simpl; lia).
  destruct (no_positive_size_never_assembles (healthy EmptyString) "vm0:host0" (fresh 1)
              _ _ "s3cr3t" Hsize eq_refl ltac:(discriminate) eq_refl)
    as (msg & _ & Hnot).
  exact Hnot.
Defined.

Lemma only_the_last_node_provisions_witness :
  Clusterize (roleDenied "3") (paramsOf (roleDenied "3") "vm0:host0") (fresh 3) =
  Clusterize (healthy "3") (paramsOf (roleDenied "3") "vm0:host0") (fresh 3).
Proof.
  destruct (only_the_last_node_provisions (roleDenied "3") (healthy "3")
              (paramsOf (roleDenied "3") "vm0:host0") (fresh 3)) as [_ Hsame];
    [reflexivity|reflexivity|reflexivity|vm_compute; reflexivity|].
  exact Hsame.
Defined.

